(** * The Oxford University Press spider of hepcrawl

    A shallow embedding of [hepcrawl/spiders/oup_spider.py]: the string and
    path primitives the spider calls, the unpacking of a bundle onto the
    disk, the dispatch of one extraction task per XML file, the listing of
    remote bundles and the record extractor [parse_node].

    Python [str] is [string]; an index or a length that Python computes as an
    integer is a [Z]; the disk is a finite map from paths to file contents;
    an exception is a value of [result]. *)

From Stdlib Require Import ZArith Ascii String List Lia Bool.
From stdpp Require Import base option gmap strings list.

Local Open Scope string_scope.
Local Open Scope Z_scope.

#[local] Arguments String.append !_ _ / : simpl nomatch.

(** ** Exceptions *)

Inductive pyexc : Type :=
  | AttributeError
  | IndexError
  | TypeError
  | ValueError
  | KeyError.

Inductive result (A : Type) : Type :=
  | Ok (a : A)
  | Raise (e : pyexc).

Arguments Ok {A} a.
Arguments Raise {A} e.

#[global] Instance result_ret : MRet result := fun _ a => Ok a.

#[global] Instance result_bind : MBind result := fun _ _ f m =>
  match m with
  | Ok a => f a
  | Raise e => Raise e
  end.

(** ** Python strings *)

Module Str.

(** [len(s)] *)
Definition len (s : string) : Z := Z.of_nat (String.length s).

(** [s[:n]] for a natural [n]. *)
Fixpoint take (n : nat) (s : string) : string :=
  match n, s with
  | S k, String c r => String c (take k r)
  | _, _ => ""
  end.

(** [s[n:]] for a natural [n]. *)
Fixpoint drop (n : nat) (s : string) : string :=
  match n, s with
  | S k, String _ r => drop k r
  | _, _ => s
  end.

(** [s[0:k]]: a negative bound counts from the end, and every bound is
    clamped to the string. *)
Definition slice_to (s : string) (k : Z) : string :=
  if k <? 0 then take (Z.to_nat (len s + k)) s else take (Z.to_nat k) s.

(** [s[k:]] for a bound that is never negative in this program. *)
Definition slice_from (s : string) (k : Z) : string := drop (Z.to_nat k) s.

(** [s.startswith(p)] *)
Fixpoint startswith (s p : string) {struct p} : bool :=
  match p, s with
  | "", _ => true
  | String a p', String b s' => if Ascii.eqb a b then startswith s' p' else false
  | String _ _, "" => false
  end.

(** [s.endswith(x)] *)
Fixpoint endswith (s x : string) : bool :=
  if String.eqb s x then true
  else match s with
       | "" => false
       | String _ r => endswith r x
       end.

(** [s.find(x)]: the lowest index at which [x] occurs, [-1] when it does
    not occur. *)
Fixpoint find (s x : string) : Z :=
  if startswith s x then 0
  else match s with
       | "" => -1
       | String _ r => let i := find r x in if i <? 0 then -1 else i + 1
       end.

(** [x in s] *)
Fixpoint contains (x s : string) : bool :=
  if startswith s x then true
  else match s with
       | "" => false
       | String _ r => contains x r
       end.

(** [s.rfind(c)] for a one-character [c]: the highest index, or [-1]. *)
Fixpoint rfind (s : string) (c : ascii) : Z :=
  match s with
  | "" => -1
  | String a r =>
      let i := rfind r c in
      if 0 <=? i then i + 1 else if Ascii.eqb a c then 0 else -1
  end.

(** [s.split(c)] for a one-character separator; never the empty list. *)
Fixpoint split (s : string) (c : ascii) : list string :=
  match s with
  | "" => [""]
  | String a r =>
      if Ascii.eqb a c then "" :: split r c
      else match split r c with
           | h :: t => String a h :: t
           | [] => [String a ""]
           end
  end.

(** [s.rstrip(c)] for a one-character [c]. *)
Fixpoint rstrip (s : string) (c : ascii) : string :=
  match s with
  | "" => ""
  | String a r =>
      match rstrip r c with
      | "" => if Ascii.eqb a c then "" else String a ""
      | r' => String a r'
      end
  end.

(** [c * n] *)
Fixpoint repeat (c : ascii) (n : nat) : string :=
  match n with
  | O => ""
  | S k => String c (repeat c k)
  end.

Definition lower_char (c : ascii) : ascii :=
  let n := nat_of_ascii c in
  if ((65 <=? n) && (n <=? 90))%nat then ascii_of_nat (n + 32) else c.

(** [s.lower()] *)
Fixpoint lower (s : string) : string :=
  match s with
  | "" => ""
  | String c r => String (lower_char c) (lower r)
  end.

(** [sep.join(l)] *)
Fixpoint join (sep : string) (l : list string) : string :=
  match l with
  | [] => ""
  | [x] => x
  | x :: r => x ++ sep ++ join sep r
  end.

Definition is_digit (c : ascii) : bool :=
  let n := nat_of_ascii c in ((48 <=? n) && (n <=? 57))%nat.

(** The characters [str.strip()] removes: space, tab, newline, vertical
    tab, form feed and carriage return. *)
Definition is_space (c : ascii) : bool :=
  let n := nat_of_ascii c in ((n =? 32) || ((9 <=? n) && (n <=? 13)))%nat.

Fixpoint lstrip_space (s : string) : string :=
  match s with
  | String c r => if is_space c then lstrip_space r else s
  | "" => ""
  end.

Fixpoint rstrip_space (s : string) : string :=
  match s with
  | "" => ""
  | String a r =>
      match rstrip_space r with
      | "" => if is_space a then "" else String a ""
      | r' => String a r'
      end
  end.

Fixpoint all_digits (s : string) : bool :=
  match s with
  | "" => true
  | String c r => is_digit c && all_digits r
  end.

(** The number a string of decimal digits denotes, most significant digit
    first, on top of the value [acc] read so far. *)
Fixpoint digits_value (acc : Z) (s : string) : Z :=
  match s with
  | "" => acc
  | String c r => digits_value (10 * acc + (Z.of_nat (nat_of_ascii c) - 48)) r
  end.

(** [int(s)] on a string, in base ten: blanks around the literal are
    dropped, one sign is allowed, and what remains must be one digit or
    more; anything else is a [ValueError]. *)
Definition int (s : string) : result Z :=
  let body := rstrip_space (lstrip_space s) in
  let '(neg, ds) :=
    match body with
    | String "-" r => (true, r)
    | String "+" r => (false, r)
    | _ => (false, body)
    end in
  match ds with
  | "" => Raise ValueError
  | _ => if all_digits ds
         then Ok (if neg : bool then - digits_value 0 ds else digits_value 0 ds)
         else Raise ValueError
  end.

End Str.

(** ** [os.path] on POSIX *)

Module os_path.

(** [os.path.join(a, b)] *)
Definition join (a b : string) : string :=
  if Str.startswith b "/" then b
  else if String.eqb a "" || Str.endswith a "/" then a ++ b
  else a ++ "/" ++ b.

(** [os.path.join(a, b, c)] *)
Definition join3 (a b c : string) : string := join (join a b) c.

(** [os.path.basename(p)] *)
Definition basename (p : string) : string :=
  let i := Str.rfind p "/" + 1 in
  Str.slice_from p i.

(** [os.path.dirname(p)] *)
Definition dirname (p : string) : string :=
  let i := Str.rfind p "/" + 1 in
  let head := Str.slice_to p i in
  if negb (String.eqb head "")
     && negb (String.eqb head (Str.repeat "/" (String.length head)))
  then Str.rstrip head "/" else head.

(** The scan of [splitext] over the leading dots of the last component:
    [true] when some character at an index from [i] up to [dotIndex] is
    not a dot. [n] is the number of indices left to look at. *)
Fixpoint has_stem (p : string) (i : nat) (n : nat) : bool :=
  match n with
  | O => false
  | S k =>
      if String.eqb (Str.take 1 (Str.drop i p)) "." then has_stem p (S i) k
      else true
  end.

(** [os.path.splitext(p)] *)
Definition splitext (p : string) : string * string :=
  let sepIndex := Str.rfind p "/" in
  let dotIndex := Str.rfind p "." in
  if (sepIndex <? dotIndex)
     && has_stem p (Z.to_nat (sepIndex + 1)) (Z.to_nat (dotIndex - (sepIndex + 1)))
  then (Str.slice_to p dotIndex, Str.slice_from p dotIndex)
  else (p, "").

End os_path.

(** ** The disk and the bundle archive *)

(** The regular files on the disk, by path. *)
Abbreviation Disk := (gmap string string).

(** [os.path.exists(path)] *)
Definition exists_on (disk : Disk) (path : string) : bool :=
  bool_decide (is_Some (disk !! path)).

(** An open [ZipFile]: its members in the order of the archive, each a name
    and its bytes. *)
Definition ZipFile : Type := list (string * string).

(** [z.namelist()] *)
Definition namelist (z : ZipFile) : list string := map fst z.

(** The bytes [z.extract] writes for a name: those of the member the
    archive's directory holds under it, the last one of that name. *)
Definition member_data (z : ZipFile) (name : string) : string :=
  fold_left (fun data m => if String.eqb (fst m) name then snd m else data) z "".

(** [z.extract(name, target_folder)]: the member is written below the target
    folder, at the path the two join to, which is where [zipfile] puts a
    member whose name is a relative path without [.] and [..] parts. *)
Definition extract (z : ZipFile) (name target_folder : string) (disk : Disk) : Disk :=
  <[os_path.join target_folder name := member_data z name]> disk.

(** The state the loop of [unzip_files] runs on: the disk, the names handed
    to [z.extract] so far, and the list under construction. *)
Record unzip_state : Type := UnzipState {
  disk_of : Disk;
  extracted : list string;
  xml_files : list string
}.

(** One turn of the loop of [unzip_files]. *)
Definition unzip_step (z : ZipFile) (target_folder type : string)
    (st : unzip_state) (filename : string) : unzip_state :=
  if Str.endswith filename type then
    let absolute_path := os_path.join target_folder filename in
    if negb (exists_on (disk_of st) absolute_path) then
      UnzipState (extract z filename target_folder (disk_of st))
                 (extracted st ++ [filename])%list
                 (xml_files st ++ [absolute_path])%list
    else
      UnzipState (disk_of st) (extracted st) (xml_files st ++ [absolute_path])%list
  else st.

(** [unzip_files(filename, target_folder, type)], on the archive [z] that
    [ZipFile(filename)] opens. *)
Definition unzip_files (z : ZipFile) (target_folder : string) (type : string)
    (disk : Disk) : unzip_state :=
  fold_left (unzip_step z target_folder type) (namelist z) (UnzipState disk [] []).

(** ** Requests and responses *)

Inductive Callback : Type :=
  | parse
  | handle_package_file_cb
  | handle_package_ftp_cb.

Record Request : Type := MkRequest {
  url : string;
  meta : gmap string string;
  callback : Callback
}.

Record Response : Type := MkResponse {
  response_url : string;
  body : string;
  response_meta : gmap string string
}.

(** ** [handle_package_ftp] *)

(** The [while True] loop: [splitext] is applied until it finds no
    extension. [fuel] bounds the number of turns. *)
Fixpoint splitext_loop (fuel : nat) (zip_target_folder : string) : option string :=
  match fuel with
  | O => None
  | S k =>
      let '(zip_target_folder, dummy) := os_path.splitext zip_target_folder in
      if String.eqb dummy "" then Some zip_target_folder
      else splitext_loop k zip_target_folder
  end.

(** Lines 193 and 194: the folder the archival branch unpacks into. *)
Definition archival_folder (zip_target_folder : string) : string :=
  let zip_target_folder :=
    Str.slice_to zip_target_folder (Str.find zip_target_folder "_archival") in
  os_path.join zip_target_folder "archival".

(** The request of one XML file, with the two sibling paths. *)
Definition xml_request (zip_filepath xml_file : string) : Request :=
  let dir_path := os_path.dirname xml_file in
  let filename := nth 0 (Str.split (os_path.basename xml_file) ".") "" in
  let pdf_url := os_path.join3 dir_path "pdf" (filename ++ "." ++ "pdf") in
  let pdfa_url := os_path.join3 dir_path "archival" (filename ++ "." ++ "pdf") in
  MkRequest ("file://" ++ xml_file)
            (list_to_map [("package_path", zip_filepath); ("xml_url", xml_file);
                          ("pdf_url", pdf_url); ("pdfa_url", pdfa_url)])
            parse.

(** What a run of [handle_package_ftp] leaves: the disk, the calls of
    [unzip_files] it made (target folder and suffix), and the requests it
    yielded. *)
Record handled : Type := Handled {
  final_disk : Disk;
  unzip_calls : list (string * string);
  requests : list Request
}.

(** [handle_package_ftp(response)], run to the end of the generator, on the
    archive [z] stored at [response.body]. [None] only if the loop ran out
    of fuel. *)
Definition handle_package_ftp (response : Response) (z : ZipFile) (disk : Disk)
    : option handled :=
  let zip_filepath := body response in
  zip_target_folder ← splitext_loop (S (String.length zip_filepath)) zip_filepath;
  let '(zip_target_folder, disk, calls) :=
    if Str.contains ".pdf" zip_filepath then
      let zip_target_folder := os_path.join zip_target_folder "pdf" in
      (zip_target_folder,
       disk_of (unzip_files z zip_target_folder ".pdf" disk),
       [(zip_target_folder, ".pdf")])
    else (zip_target_folder, disk, []) in
  let '(zip_target_folder, disk, calls) :=
    if Str.endswith zip_target_folder "_archival" then
      let zip_target_folder := archival_folder zip_target_folder in
      (zip_target_folder,
       disk_of (unzip_files z zip_target_folder ".pdf" disk),
       (calls ++ [(zip_target_folder, ".pdf")])%list)
    else (zip_target_folder, disk, calls) in
  if Str.contains ".xml" zip_filepath then
    let st := unzip_files z zip_target_folder ".xml" disk in
    Some (Handled (disk_of st) (calls ++ [(zip_target_folder, ".xml")])%list
                  (map (xml_request zip_filepath) (xml_files st)))
  else Some (Handled disk calls []).

(** ** The spider *)

Record Spider : Type := MkSpider {
  name : string;
  ftp_folder : string;
  ftp_host : option string;
  ftp_netrc : option string;
  target_folder : string;
  package_path : option string
}.

(** [d[key]] on a dictionary with string keys. *)
Definition getitem (d : gmap string string) (key : string) : result string :=
  match d !! key with
  | Some v => Ok v
  | None => Raise KeyError
  end.

Section RemoteDiscovery.

(** [hepcrawl.utils.ftp_connection_info]: the host and the connection
    parameters. *)
Variable ftp_connection_info :
  option string -> option string -> string * gmap string string.

(** [ftputil.FTPHost(server, user, password).listdir(path)] *)
Variable listdir : string -> string -> string -> string -> list string.

(** [hepcrawl.utils.ftp_list_files(server_folder, target_folder, server,
    user, password)]: the new files and the others. *)
Variable ftp_list_files :
  string -> string -> string -> string -> string -> list string * list string.

(** [strftime('%Y-%m-%d_%H:%M:%S', localtime())] at the n-th reading of
    the clock. *)
Variable strftime_localtime : nat -> string.

Definition ftp_list_folders (server_folder server user password : string)
    : list string :=
  let folders := listdir server user password ("." ++ "/" ++ server_folder) in
  List.filter (fun folder => negb (Str.startswith folder ".")) folders.

Definition generate_download_name (n : nat) : string := strftime_localtime n.

(** ["ftp://{0}/{1}".format(ftp_host, remote_file)] *)
Definition remote_url (ftp_host remote_file : string) : string :=
  "ftp://" ++ ftp_host ++ "/" ++ remote_file.

(** One turn of the loop over the new files of a folder: the parameters
    dictionary is updated in place, and the request takes a copy of it. *)
Definition file_step (self : Spider) (ftp_host new_download_name : string)
    (st : gmap string string * list Request) (remote_file : string)
    : gmap string string * list Request :=
  let '(ftp_params, yielded) := st in
  if Str.contains ".zip" remote_file then
    let ftp_params :=
      <["ftp_local_filename" :=
          os_path.join (target_folder self)
            (Str.join "_" [new_download_name; os_path.basename remote_file])]>
        ftp_params in
    let remote_url := remote_url ftp_host remote_file in
    (ftp_params,
     (yielded ++ [MkRequest remote_url ftp_params handle_package_ftp_cb])%list)
  else st.

(** The loop over the folders; [n] counts the readings of the clock. *)
Fixpoint folder_loop (self : Spider) (ftp_host : string) (n : nat)
    (folders : list string) (st : gmap string string * list Request)
    : result (gmap string string * list Request) :=
  match folders with
  | [] => Ok st
  | folder :: rest =>
      let new_download_name := generate_download_name n in
      user ← getitem (fst st) "ftp_user";
      password ← getitem (fst st) "ftp_password";
      let '(new_files, dummy) :=
        ftp_list_files (os_path.join (ftp_folder self) folder)
          (target_folder self) ftp_host user password in
      folder_loop self ftp_host (S n) rest
        (fold_left (file_step self ftp_host new_download_name) new_files st)
  end.

(** [start_requests()], run to the end of the generator. *)
Definition start_requests (self : Spider) : result (list Request) :=
  match package_path self with
  | Some (String c p) =>
      Ok [MkRequest (String c p) ∅ handle_package_file_cb]
  | _ =>
      let '(ftp_host, ftp_params) :=
        ftp_connection_info (ftp_host self) (ftp_netrc self) in
      user ← getitem ftp_params "ftp_user";
      password ← getitem ftp_params "ftp_password";
      st ← folder_loop self ftp_host 0
             (ftp_list_folders (ftp_folder self) ftp_host user password)
             (ftp_params, []);
      Ok (snd st)
  end.

End RemoteDiscovery.

(** ** Python values of the record extractor *)

#[warnings="-register-all"]
Inductive pyval : Type :=
  | PNone
  | PStr (s : string)
  | PInt (n : Z)
  | PList (l : list pyval)
  | PDict (d : list (string * pyval)).

Module Py.

(** [v.lower()]: only a string has the method. *)
Definition lower (v : pyval) : result pyval :=
  match v with
  | PStr s => Ok (PStr (Str.lower s))
  | _ => Raise AttributeError
  end.

(** [v is None] *)
Definition is_None (v : pyval) : bool :=
  match v with
  | PNone => true
  | _ => false
  end.

(** [v[0]] *)
Definition getitem0 (v : pyval) : result pyval :=
  match v with
  | PStr "" => Raise IndexError
  | PStr (String c _) => Ok (PStr (String c ""))
  | PList [] => Raise IndexError
  | PList (x :: _) => Ok x
  | PDict _ => Raise KeyError
  | PNone | PInt _ => Raise TypeError
  end.

(** [v in l] for a list [l] of strings. *)
Definition in_strs (v : pyval) (l : list string) : bool :=
  match v with
  | PStr s => existsb (String.eqb s) l
  | _ => false
  end.

(** [d.get(key, default)]: the key has to be hashable. *)
Definition dict_get (d : gmap string string) (key : pyval) (default : string)
    : result string :=
  match key with
  | PStr s => Ok (match d !! s with Some v => v | None => default end)
  | PList _ | PDict _ => Raise TypeError
  | PNone | PInt _ => Ok default
  end.

Definition of_option (o : option string) : pyval :=
  match o with
  | Some s => PStr s
  | None => PNone
  end.

End Py.

(** ** Selectors *)

(** A selector is what it answers: for an XPath query, the strings of the
    nodes it selects, in document order. *)
Record Selector : Type := MkSelector {
  xpath : string -> list string
}.

(** [node.xpath(q).extract()]: the list of the strings. *)
Definition extract_all (node : Selector) (q : string) : pyval :=
  PList (map PStr (xpath node q)).

(** [node.xpath(q).extract_first()] *)
Definition extract_first (node : Selector) (q : string) : option string :=
  head (xpath node q).

(** The scan of [get_arxiv] over the selected text nodes. *)
Fixpoint first_nonempty (arxivs_raw : list string) : option string :=
  match arxivs_raw with
  | [] => None
  | ar :: rest => if negb (String.eqb ar "") then Some ar else first_nonempty rest
  end.

Definition get_arxiv (node : Selector) : option string :=
  let arxivs_raw := xpath node "//article-id[@pub-id-type='arxiv']/text()" in
  first_nonempty arxivs_raw.

(** ** The record extractor *)

Definition allowed_article_types : list string :=
  [ "research-article"; "corrected-article"; "original-article";
    "introduction"; "letter"; "correction"; "addendum"; "review-article";
    "rapid-communications" ].

Definition article_type_mapping : gmap string string :=
  list_to_map
    [ ("research-article", "article"); ("corrected-article", "article");
      ("original-article", "article"); ("correction", "corrigendum");
      ("addendum", "addendum"); ("introduction", "other"); ("letter", "other");
      ("review-article", "other"); ("rapid-communications", "other") ].

Definition default_article_type : string := "unknown".

(** The [HEPLoader] of a record: the values handed to it, by field, in the
    order of the calls. What its processors make of them when the item is
    loaded is left to the loader. *)
Definition Loader : Type := list (string * pyval).

Definition add_value (record : Loader) (field : string) (v : pyval) : Loader :=
  (record ++ [(field, v)])%list.

Definition add_xpath (node : Selector) (record : Loader) (field q : string) : Loader :=
  add_value record field (extract_all node q).

(** Line 257: [int(published_date[:4])]. *)
Definition journal_year (published_date : string) : result Z :=
  Str.int (Str.slice_to published_date 4).

(** Lines 276 to 282: the local files named in the metadata of the response. *)
Definition local_files (response : Response) : pyval :=
  let entry (key filetype : string) : list pyval :=
    match response_meta response !! key with
    | Some path => [PDict [("filetype", PStr filetype); ("path", PStr path)]]
    | None => []
    end in
  PList (entry "xml_url" "xml" ++ entry "pdf_url" "pdf" ++ entry "pdfa_url" "pdf/a")%list.

Section Extractor.

(** The methods of [hepcrawl.extractors.jats.Jats] and the function of
    [hepcrawl.utils] that [parse_node] calls. *)
Variable _get_authors : Selector -> pyval.
Variable _get_keywords : Selector -> pyval * pyval.
Variable _get_published_date : Selector -> string.
Variable get_license : option string -> pyval.

(** The body of [parse_node] from the call of [lower()] on, on the value
    [extracted] that [node.xpath('@article-type').extract()] returned: the
    spider it leaves and the record it returns, [None] for a document it
    filters out. The selector is taken with its namespaces removed; the
    log line and the final [print] are left out. *)
Definition parse_node_from (extracted : pyval) (self : Spider)
    (response : Response) (node : Selector) : result (Spider * option Loader) :=
  article_type ← Py.lower extracted;
  filtered ←
    (if Py.is_None article_type then Ok true
     else first ← Py.getitem0 article_type;
          Ok (negb (Py.in_strs first allowed_article_types)));
  if filtered : bool then Ok (self, None)
  else
    let record : Loader := [] in
    let record :=
      if Py.in_strs article_type ["correction"; "addendum"]
      then add_xpath node record "related_article_doi"
             "//related-article[@ext-link-type='doi']/@href"
      else record in
    let record := add_xpath node record "dois" "//article-id[@pub-id-type='doi']/text()" in
    let record :=
      add_value record "report_numbers"
        (PList [PDict [("source", PStr "arXiv");
                       ("value", Py.of_option (get_arxiv node))]]) in
    let record := add_xpath node record "page_nr" "//counts/page-count/@count" in
    let record := add_xpath node record "abstract" "//abstract[1]" in
    let record := add_xpath node record "title" "//article-title/text()" in
    let record := add_xpath node record "subtitle" "//subtitle/text()" in
    let record := add_value record "authors" (_get_authors node) in
    let record := add_xpath node record "collaborations" "//contrib/collab/text()" in
    let '(free_keywords, classification_numbers) := _get_keywords node in
    let record := add_value record "free_keywords" free_keywords in
    let record := add_value record "classification_numbers" classification_numbers in
    let record := add_value record "date_published" (PStr (_get_published_date node)) in
    let journal_title := "//abbrev-journal-title/text()|//journal-title/text()" in
    let record := add_xpath node record "journal_title" journal_title in
    let record := add_xpath node record "journal_issue" "//issue/text()" in
    let record := add_xpath node record "journal_volume" "//volume/text()" in
    let record := add_xpath node record "journal_artid" "//elocation-id/text()" in
    let record := add_xpath node record "journal_fpage" "//fpage/text()" in
    let record := add_xpath node record "journal_lpage" "//lpage/text()" in
    let published_date := _get_published_date node in
    year ← journal_year published_date;
    let record := add_value record "journal_year" (PInt year) in
    let record := add_value record "date_published" (PStr published_date) in
    let record := add_xpath node record "copyright_holder" "//copyright-holder/text()" in
    let record := add_xpath node record "copyright_year" "//copyright-year/text()" in
    let record := add_xpath node record "copyright_statement" "//copyright-statement/text()" in
    let record := add_value record "copyright_material" (PStr "Article") in
    let license :=
      get_license (extract_first node "//license/license-p/ext-link/text()") in
    let record := add_value record "license" license in
    let record :=
      add_value record "collections"
        (PList [PStr "Progress of Theoretical and Experimental Physics"]) in
    let record := add_value record "original_doctype" article_type in
    doctype ← Py.dict_get article_type_mapping article_type default_article_type;
    let record := add_value record "doctype" (PStr doctype) in
    let record := add_value record "local_files" (local_files response) in
    let self :=
      MkSpider "Oxford University Press" (ftp_folder self) (ftp_host self)
        (ftp_netrc self) (target_folder self) (package_path self) in
    Ok (self, Some record).

(** [parse_node(response, node)]. [extract()] on the list of selectors
    that [xpath] returns gives the list of their strings. *)
Definition parse_node (self : Spider) (response : Response) (node : Selector)
    : result (Spider * option Loader) :=
  parse_node_from (extract_all node "@article-type") self response node.

End Extractor.

(** ** Vocabulary of the statements *)

(** A directory prefix: empty, or closed by a slash. *)
Definition dir_prefix (d : string) : Prop :=
  d = "" \/ Str.endswith d "/" = true.

(** A part of a name: free of dots and of slashes. *)
Definition plain (e : string) : Prop :=
  Str.contains "." e = false /\ Str.contains "/" e = false.

(** * Properties *)

(** ** Strings *)

Module StrFacts.

Lemma append_nil_r (s : string) : s ++ "" = s.
Proof. induction s as [|c s IH]; simpl; [reflexivity | now rewrite IH]. Qed.

Lemma append_assoc (a b c : string) : (a ++ b) ++ c = a ++ (b ++ c).
Proof. induction a as [|x a IH]; simpl; [reflexivity | now rewrite IH]. Qed.

Lemma length_append (a b : string) :
  String.length (a ++ b) = (String.length a + String.length b)%nat.
Proof. induction a as [|x a IH]; simpl; [reflexivity | now rewrite IH]. Qed.

Lemma take_0 (s : string) : Str.take 0 s = "".
Proof. now destruct s. Qed.


Lemma take_app (a b : string) : Str.take (String.length a) (a ++ b) = a.
Proof.
  induction a as [|c a IH]; simpl; [now destruct b | now rewrite IH].
Qed.

Lemma drop_app (a b : string) : Str.drop (String.length a) (a ++ b) = b.
Proof. induction a as [|c a IH]; simpl; [now destruct b | exact IH]. Qed.

Lemma take_drop (n : nat) (s : string) : Str.take n s ++ Str.drop n s = s.
Proof.
  revert s; induction n as [|n IH]; intros [|c s]; simpl; try reflexivity.
  now rewrite IH.
Qed.

Lemma length_take (n : nat) (s : string) :
  String.length (Str.take n s) = Nat.min n (String.length s).
Proof.
  revert s; induction n as [|n IH]; intros [|c s]; simpl; try reflexivity.
  now rewrite IH.
Qed.

Lemma drop_nonempty (n : nat) (s : string) :
  (n < String.length s)%nat -> Str.drop n s <> "".
Proof.
  revert s; induction n as [|n IH]; intros [|c s]; simpl; intros H;
    try lia; try discriminate.
  apply IH; lia.
Qed.

Lemma startswith_spec (s p : string) :
  Str.startswith s p = true <-> exists r, s = p ++ r.
Proof.
  revert s; induction p as [|a p IH]; intros s; simpl.
  - split; [intros _; now exists s | reflexivity].
  - destruct s as [|b s].
    + split; [discriminate | intros [r Hr]; discriminate].
    + destruct (Ascii.eqb_spec a b) as [->|Hne].
      * rewrite IH. split; intros [r Hr]; exists r; simpl in *; congruence.
      * split; [discriminate | intros [r Hr]; simpl in Hr; congruence].
Qed.

Lemma startswith_app (p r : string) : Str.startswith (p ++ r) p = true.
Proof. apply startswith_spec. now exists r. Qed.

Lemma endswith_unfold (s x : string) :
  Str.endswith s x =
  if String.eqb s x then true
  else match s with "" => false | String _ r => Str.endswith r x end.
Proof. now destruct s. Qed.

Lemma endswith_spec (s x : string) :
  Str.endswith s x = true <-> exists p, s = p ++ x.
Proof.
  induction s as [|c s IH]; rewrite endswith_unfold;
    [destruct (String.eqb_spec "" x) as [<-|Hne]
    |destruct (String.eqb_spec (String c s) x) as [<-|Hne]];
    try (split; [intros _; now exists "" | reflexivity]).
  - split; [discriminate |].
    intros [p Hp]. destruct p; simpl in Hp; [congruence | discriminate].
  - rewrite IH. split.
    + intros [p ->]. now exists (String c p).
    + intros [p Hp]. destruct p as [|d p]; simpl in Hp; [congruence |].
      inversion Hp; subst. now exists p.
Qed.

Lemma endswith_app (p x : string) : Str.endswith (p ++ x) x = true.
Proof. apply endswith_spec. now exists p. Qed.

Lemma contains_unfold (x s : string) :
  Str.contains x s =
  if Str.startswith s x then true
  else match s with "" => false | String _ r => Str.contains x r end.
Proof. now destruct s. Qed.

Lemma contains_spec (x s : string) :
  Str.contains x s = true <-> exists a b, s = a ++ x ++ b.
Proof.
  induction s as [|c s IH]; rewrite contains_unfold;
    destruct (Str.startswith _ x) eqn:E;
    try (apply startswith_spec in E as [r Hr];
         split; [intros _; now exists "", r | reflexivity]).
  - split; [discriminate |]. intros (a & b & H).
    destruct a; simpl in H; [| discriminate].
    assert (Str.startswith "" x = true) by (apply startswith_spec; now exists b).
    congruence.
  - rewrite IH. split.
    + intros (a & b & ->). now exists (String c a), b.
    + intros (a & b & H). destruct a as [|d a]; simpl in H.
      * assert (Str.startswith (String c s) x = true)
          by (apply startswith_spec; now exists b).
        congruence.
      * inversion H; subst. now exists a, b.
Qed.

End StrFacts.

(** ** Unpacking a bundle *)

Section UnzipFacts.

Variables (z : ZipFile) (target_folder type : string).

Local Abbreviation step := (unzip_step z target_folder type).
Local Abbreviation matches l := (List.filter (fun n => Str.endswith n type) l).

Lemma exists_on_true (disk : Disk) (path : string) :
  exists_on disk path = true <-> is_Some (disk !! path).
Proof. unfold exists_on. apply bool_decide_eq_true. Qed.

Lemma exists_on_false (disk : Disk) (path : string) :
  exists_on disk path = false <-> disk !! path = None.
Proof.
  unfold exists_on. rewrite bool_decide_eq_false. symmetry. apply eq_None_not_Some.
Qed.

Lemma exists_on_mono (d1 d2 : Disk) (path : string) :
  d1 ⊆ d2 -> exists_on d1 path = true -> exists_on d2 path = true.
Proof.
  rewrite !exists_on_true. intros Hsub [c Hc]. exists c.
  eapply lookup_weaken; eassumption.
Qed.

Lemma step_xml_files (st : unzip_state) (n : string) :
  xml_files (step st n) =
  (xml_files st ++ map (os_path.join target_folder) (matches [n]))%list.
Proof.
  unfold step, unzip_step, matches. simpl.
  destruct (Str.endswith n type); simpl; [| now rewrite app_nil_r].
  now destruct (exists_on _ _).
Qed.

Lemma loop_xml_files (l : list string) (st : unzip_state) :
  xml_files (fold_left step l st) =
  (xml_files st ++ map (os_path.join target_folder) (matches l))%list.
Proof.
  revert st; induction l as [|n l IH]; intros st; simpl.
  - now rewrite app_nil_r.
  - rewrite IH, step_xml_files. unfold matches. simpl.
    destruct (Str.endswith n type); simpl; rewrite <- app_assoc; reflexivity.
Qed.

Lemma step_disk_grows (st : unzip_state) (n : string) :
  disk_of st ⊆ disk_of (step st n).
Proof.
  unfold step, unzip_step.
  destruct (Str.endswith n type); [| reflexivity].
  destruct (exists_on _ _) eqn:E; simpl; [reflexivity |].
  apply insert_subseteq. now apply exists_on_false.
Qed.

Lemma loop_disk_grows (l : list string) (st : unzip_state) :
  disk_of st ⊆ disk_of (fold_left step l st).
Proof.
  revert st; induction l as [|n l IH]; intros st; simpl; [reflexivity |].
  etransitivity; [apply step_disk_grows | apply IH].
Qed.


(** Once the loop is over, every matching member is on the disk. *)
Lemma loop_all_present (l : list string) (st : unzip_state) (n : string) :
  In n (matches l) ->
  exists_on (disk_of (fold_left step l st)) (os_path.join target_folder n) = true.
Proof.
  revert st; induction l as [|m l IH]; intros st; simpl; [intros [] |].
  unfold matches; simpl. destruct (Str.endswith m type) eqn:Em.
  - intros [<- | H]; [| now apply IH].
    eapply exists_on_mono; [apply loop_disk_grows |].
    unfold step, unzip_step. rewrite Em.
    destruct (exists_on (disk_of st) _) eqn:E; simpl; [exact E |].
    apply exists_on_true. unfold extract. rewrite lookup_insert_eq. eauto.
  - intros H. now apply IH.
Qed.


End UnzipFacts.

(** ** Paths *)

Module PathFacts.
Import StrFacts.

Lemma rfind_bounds (s : string) (c : ascii) :
  -1 <= Str.rfind s c < Str.len s.
Proof.
  unfold Str.len. induction s as [|a s IH]; simpl; [lia |].
  destruct (0 <=? Str.rfind s c) eqn:E; [apply Z.leb_le in E; lia |].
  destruct (Ascii.eqb a c); lia.
Qed.

Lemma contains_char_cons (c a : ascii) (r : string) :
  Str.contains (String c "") (String a r) =
  Ascii.eqb c a || Str.contains (String c "") r.
Proof.
  rewrite contains_unfold. simpl. now destruct (Ascii.eqb c a).
Qed.

Lemma contains_char_app (c : ascii) (a b : string) :
  Str.contains (String c "") (a ++ b) =
  Str.contains (String c "") a || Str.contains (String c "") b.
Proof.
  induction a as [|x a IH]; [reflexivity |]. simpl String.append.
  rewrite !contains_char_cons, IH. now rewrite orb_assoc.
Qed.

Lemma rfind_absent (s : string) (c : ascii) :
  Str.contains (String c "") s = false -> Str.rfind s c = -1.
Proof.
  induction s as [|a s IH]; [reflexivity |].
  rewrite contains_char_cons. intros H. simpl. apply orb_false_elim in H as [Ha Hs].
  rewrite (IH Hs). simpl. rewrite Ascii.eqb_sym in Ha. now rewrite Ha.
Qed.

Lemma rfind_app (a b : string) (c : ascii) :
  Str.rfind (a ++ b) c =
  if 0 <=? Str.rfind b c then Str.len a + Str.rfind b c else Str.rfind a c.
Proof.
  unfold Str.len. induction a as [|x a IH]; simpl Str.rfind.
  - simpl. destruct (0 <=? Str.rfind b c) eqn:E; [reflexivity |].
    pose proof (rfind_bounds b c). apply Z.leb_gt in E. lia.
  - simpl String.append. simpl Str.rfind. rewrite IH.
    destruct (0 <=? Str.rfind b c) eqn:E.
    + apply Z.leb_le in E.
      replace (0 <=? Z.of_nat (String.length a) + Str.rfind b c) with true
        by (symmetry; apply Z.leb_le; lia).
      simpl String.length. lia.
    + reflexivity.
Qed.

(** The last occurrence: [c] followed by a string free of it. *)
Lemma rfind_last (a b : string) (c : ascii) :
  Str.contains (String c "") b = false ->
  Str.rfind (a ++ String c b) c = Str.len a.
Proof.
  intros H. rewrite rfind_app. simpl Str.rfind. rewrite (rfind_absent _ _ H).
  simpl. rewrite Ascii.eqb_refl. simpl. lia.
Qed.

Lemma splitext_cases (p : string) :
  os_path.splitext p = (p, "") \/
  exists k : nat,
    (k < String.length p)%nat /\
    os_path.splitext p = (Str.take k p, Str.drop k p).
Proof.
  unfold os_path.splitext.
  destruct (_ && _) eqn:E; [right | now left].
  apply andb_prop in E as [E _]. apply Z.ltb_lt in E.
  pose proof (rfind_bounds p "/"). pose proof (rfind_bounds p ".").
  unfold Str.len in *. exists (Z.to_nat (Str.rfind p ".")). split; [lia |].
  unfold Str.slice_to, Str.slice_from.
  replace (Str.rfind p "." <? 0) with false by (symmetry; apply Z.ltb_ge; lia).
  reflexivity.
Qed.

Lemma splitext_join (p a b : string) :
  os_path.splitext p = (a, b) -> p = a ++ b.
Proof.
  destruct (splitext_cases p) as [-> | (k & _ & ->)]; intros [= <- <-].
  - now rewrite append_nil_r.
  - now rewrite take_drop.
Qed.

Lemma splitext_shrinks (p a b : string) :
  os_path.splitext p = (a, b) -> b <> "" ->
  (String.length a < String.length p)%nat.
Proof.
  destruct (splitext_cases p) as [-> | (k & Hk & ->)]; intros [= <- <-] Hb.
  - congruence.
  - rewrite length_take. lia.
Qed.

Lemma splitext_no_ext (p a : string) :
  os_path.splitext p = (a, "") -> a = p /\ os_path.splitext a = (a, "").
Proof.
  intros H. pose proof (splitext_join _ _ _ H) as Hj.
  rewrite append_nil_r in Hj. subst a. now split.
Qed.

(** The loop of [handle_package_ftp] ends within the fuel it is given, on
    a path [splitext] finds no extension in, a prefix of the path it
    started from. *)
Lemma splitext_loop_total (fuel : nat) (p : string) :
  (String.length p < fuel)%nat ->
  exists t e, splitext_loop fuel p = Some t /\
              os_path.splitext t = (t, "") /\ p = t ++ e.
Proof.
  revert p; induction fuel as [|fuel IH]; intros p Hlt; [lia |].
  simpl. destruct (os_path.splitext p) as [a b] eqn:E.
  destruct (String.eqb_spec b "") as [-> | Hne].
  - apply splitext_no_ext in E as [-> E]. exists p, "".
    now rewrite append_nil_r.
  - pose proof (splitext_shrinks _ _ _ E Hne) as Hs.
    destruct (IH a) as (t & e & Ht & Hfix & Ha); [lia |].
    exists t, (e ++ b). repeat split; try assumption.
    rewrite (splitext_join _ _ _ E), Ha. apply append_assoc.
Qed.

End PathFacts.

Module NameFacts.
Import StrFacts PathFacts.

Lemma rfind_dir_prefix (d x : string) :
  dir_prefix d -> Str.contains "/" x = false ->
  Str.rfind (d ++ x) "/" + 1 = Str.len d.
Proof.
  intros [-> | Hd] Hx.
  - simpl. now rewrite (rfind_absent _ _ Hx).
  - apply endswith_spec in Hd as [d' ->]. rewrite append_assoc.
    simpl String.append. rewrite (rfind_last d' x "/" Hx).
    unfold Str.len. rewrite length_append. simpl. lia.
Qed.

Lemma has_stem_here (d : string) (c : ascii) (r : string) (n : nat) :
  c <> "."%char ->
  os_path.has_stem (d ++ String c r) (String.length d) (S n) = true.
Proof.
  intros Hc. simpl. rewrite drop_app. simpl.
  destruct r; simpl; destruct (Ascii.eqb_spec c "."); congruence.
Qed.

Lemma nonempty_dotfree_head (s : string) :
  s <> "" -> Str.contains "." s = false ->
  exists c r, s = String c r /\ c <> "."%char.
Proof.
  destruct s as [|c r]; [congruence |]. intros _ H.
  rewrite contains_char_cons in H. apply orb_false_elim in H as [H _].
  exists c, r. split; [reflexivity |].
  intros ->. discriminate.
Qed.

(** [splitext] takes the last extension off a name with a stem. *)
Lemma splitext_last_ext (d stem r e : string) :
  dir_prefix d ->
  stem <> "" -> Str.contains "." stem = false -> Str.contains "/" stem = false ->
  Str.contains "/" r = false ->
  Str.contains "." e = false -> Str.contains "/" e = false ->
  os_path.splitext (d ++ stem ++ r ++ String "." e) = (d ++ stem ++ r, String "." e).
Proof.
  intros Hd Hne Hdot Hsl Hr Hedot Hesl.
  assert (Hsep : Str.rfind (d ++ stem ++ r ++ String "." e) "/" + 1 = Str.len d).
  { apply rfind_dir_prefix; [assumption |].
    rewrite !contains_char_app, contains_char_cons, Hsl, Hr, Hesl. reflexivity. }
  assert (Hdi : Str.rfind (d ++ stem ++ r ++ String "." e) "." = Str.len (d ++ stem ++ r)).
  { rewrite <- (rfind_last (d ++ stem ++ r) e "." Hedot).
    now rewrite !append_assoc. }
  unfold os_path.splitext. rewrite Hdi.
  replace (Str.rfind (d ++ stem ++ r ++ String "." e) "/") with (Str.len d - 1) by lia.
  unfold Str.len. rewrite !length_append.
  destruct (nonempty_dotfree_head stem Hne Hdot) as (c & s' & -> & Hc).
  replace (Z.to_nat (Z.of_nat (String.length d) - 1 + 1)) with (String.length d) by lia.
  simpl String.length.
  replace (Z.to_nat _) with (S (String.length s' + String.length r)) by lia.
  simpl String.append at 1. rewrite has_stem_here by assumption.
  replace (_ <? _) with true by (symmetry; apply Z.ltb_lt; lia).
  simpl andb. cbv iota.
  unfold Str.slice_to, Str.slice_from.
  replace (_ <? 0) with false by (symmetry; apply Z.ltb_ge; lia).
  rewrite Nat2Z.id.
  rewrite <- !append_assoc.
  assert (Hlen : (String.length d + (S (String.length s') + String.length r))%nat
                 = String.length ((d ++ String c s') ++ r))
    by (rewrite !length_append; simpl; lia).
  rewrite Hlen.
  now rewrite take_app, drop_app.
Qed.

(** [splitext] finds no extension in a name without a dot. *)
Lemma splitext_stem_only (d stem : string) :
  dir_prefix d ->
  Str.contains "." stem = false -> Str.contains "/" stem = false ->
  os_path.splitext (d ++ stem) = (d ++ stem, "").
Proof.
  intros Hd Hdot Hsl. unfold os_path.splitext.
  pose proof (rfind_dir_prefix d stem Hd Hsl) as Hsep.
  assert (Hdi : Str.rfind (d ++ stem) "." < Str.len d).
  { rewrite rfind_app, (rfind_absent _ _ Hdot). simpl.
    apply rfind_bounds. }
  replace (_ <? _) with false by (symmetry; apply Z.ltb_ge; lia).
  reflexivity.
Qed.

Lemma join_snoc (sep : string) (x : string) (l : list string) (e : string) :
  Str.join sep (x :: l ++ [e]) = Str.join sep (x :: l) ++ sep ++ e.
Proof.
  revert x; induction l as [|y l IH]; intros x; [reflexivity |].
  change (Str.join sep (x :: (y :: l) ++ [e]))
    with (x ++ sep ++ Str.join sep (y :: l ++ [e])).
  rewrite IH.
  change (Str.join sep (x :: y :: l)) with (x ++ sep ++ Str.join sep (y :: l)).
  now rewrite !append_assoc.
Qed.

Lemma join_cons (sep x : string) (l : list string) :
  exists r, Str.join sep (x :: l) = x ++ r /\
            (r = "" \/ Str.startswith r sep = true) /\
            (Forall (fun e => Str.contains "/" e = false) l ->
             Str.contains "/" sep = false -> Str.contains "/" r = false).
Proof.
  destruct l as [|y l].
  - exists "". simpl. rewrite append_nil_r. repeat split; auto.
  - exists (sep ++ Str.join sep (y :: l)). repeat split.
    + right. apply startswith_app.
    + intros Hall Hsep. rewrite contains_char_app, Hsep. simpl.
      clear x. revert y Hall. induction l as [|w l IH]; intros y Hall.
      * simpl. now inversion Hall.
      * change (Str.join sep (y :: w :: l)) with (y ++ sep ++ Str.join sep (w :: l)).
        rewrite !contains_char_app, Hsep.
        inversion Hall as [|? ? Hy Hrest]; subst. rewrite Hy. simpl.
        now apply IH.
Qed.

(** The loop strips every extension of a dotted name. *)
Lemma splitext_loop_dotted (d stem : string) (exts : list string) (fuel : nat) :
  dir_prefix d -> stem <> "" -> plain stem -> Forall plain exts ->
  (length exts < fuel)%nat ->
  splitext_loop fuel (d ++ Str.join "." (stem :: exts)) = Some (d ++ stem).
Proof.
  intros Hd Hne [Hdot Hsl] Hexts. revert fuel.
  induction exts as [|e exts IH] using rev_ind; intros fuel Hfuel.
  - destruct fuel as [|fuel]; [simpl in Hfuel; lia |]. simpl.
    rewrite splitext_stem_only by assumption. reflexivity.
  - rewrite length_app in Hfuel. simpl in Hfuel.
    destruct fuel as [|fuel]; [lia |].
    apply Forall_app in Hexts as [Hexts He].
    inversion He as [|? ? [Hedot Hesl] _]; subst.
    rewrite join_snoc.
    destruct (join_cons "." stem exts) as (r & EJ & _ & Hr).
    assert (Hrs : Str.contains "/" r = false).
    { apply Hr; [| reflexivity].
      eapply Forall_impl; [exact Hexts |]. now intros ? [_ ?]. }
    specialize (IH Hexts fuel ltac:(lia)).
    rewrite EJ in IH |- *.
    replace (d ++ (stem ++ r) ++ "." ++ e)
      with (d ++ stem ++ r ++ String "." e) by (now rewrite !append_assoc).
    cbn [splitext_loop].
    rewrite splitext_last_ext by assumption.
    cbn [String.eqb]. exact IH.
Qed.

End NameFacts.

Module SiblingFacts.
Import StrFacts PathFacts NameFacts.

(** Where [rfind] points: at a [c] that only a [c]-free rest follows. *)
Lemma rfind_decompose (s : string) (c : ascii) :
  (Str.rfind s c = -1 /\ Str.contains (String c "") s = false) \/
  (exists a b, s = a ++ String c b /\
               Str.contains (String c "") b = false /\ Str.rfind s c = Str.len a).
Proof.
  induction s as [|x s IH]; [now left |].
  destruct IH as [[Hr Hc] | (a & b & -> & Hb & Hr)].
  - destruct (Ascii.eqb_spec x c) as [-> | Hne].
    + right. exists "", s. repeat split; [assumption |].
      simpl. rewrite Hr. simpl. now rewrite Ascii.eqb_refl.
    + left. split.
      * simpl. rewrite Hr. simpl. now apply Ascii.eqb_neq in Hne as ->.
      * rewrite contains_char_cons, Hc.
        apply Ascii.eqb_neq in Hne. rewrite Ascii.eqb_sym in Hne. now rewrite Hne.
  - right. exists (String x a), b. repeat split; [assumption |].
    change (String x a ++ String c b) with (String x (a ++ String c b)).
    cbn [Str.rfind]. rewrite Hr. unfold Str.len.
    replace (0 <=? Z.of_nat (String.length a)) with true
      by (symmetry; apply Z.leb_le; lia).
    simpl String.length. lia.
Qed.

(** [basename] is the slash-free end of the path, after a directory
    prefix. *)
Lemma basename_spec (x : string) :
  exists d, dir_prefix d /\ x = d ++ os_path.basename x /\
            Str.contains "/" (os_path.basename x) = false.
Proof.
  unfold os_path.basename, Str.slice_from.
  destruct (rfind_decompose x "/") as [[Hr Hc] | (a & b & -> & Hb & Hr)].
  - rewrite Hr. simpl. exists "".
    replace (Str.drop 0 x) with x by (now destruct x).
    split; [now left |]. split; [reflexivity | assumption].
  - rewrite Hr. unfold Str.len.
    replace (Z.to_nat (Z.of_nat (String.length a) + 1))
      with (String.length (a ++ "/")) by (rewrite length_append; simpl; lia).
    replace (a ++ String "/" b) with ((a ++ "/") ++ b)
      by (now rewrite append_assoc).
    rewrite drop_app. exists (a ++ "/").
    split; [right; apply endswith_app |]. split; [reflexivity | assumption].
Qed.

(** The first component of [split('.')] is the part before the first
    dot. *)
Lemma split_head (b : string) :
  exists stem rest,
    b = stem ++ rest /\ Str.contains "." stem = false /\
    (rest = "" \/ Str.startswith rest "." = true) /\
    nth 0 (Str.split b ".") "" = stem.
Proof.
  induction b as [|a r IH].
  - exists "", "". repeat split; auto.
  - destruct IH as (stem & rest & Hr & Hdot & Hrest & Hnth).
    cbn [Str.split]. destruct (Ascii.eqb_spec a ".") as [-> | Hne].
    + exists "", (String "." r). repeat split; auto.
    + exists (String a stem), rest. repeat split.
      * simpl. now rewrite Hr.
      * rewrite contains_char_cons, Hdot.
        apply Ascii.eqb_neq in Hne. rewrite Ascii.eqb_sym in Hne. now rewrite Hne.
      * assumption.
      * destruct (Str.split r ".") as [|h t]; simpl in *; now subst.
Qed.

Lemma last_char_inj (a b : string) (x y : ascii) :
  a ++ String x "" = b ++ String y "" -> x = y.
Proof.
  revert b; induction a as [|c a IH]; intros [|d b] H; simpl in H.
  - now inversion H.
  - inversion H as [[Hc Hb]]. destruct b; discriminate.
  - inversion H as [[Hc Ha]]. destruct a; discriminate.
  - inversion H. eauto.
Qed.

Lemma join_plain (a b : string) :
  a <> "" -> Str.endswith a "/" = false -> Str.startswith b "/" = false ->
  os_path.join a b = a ++ "/" ++ b.
Proof.
  intros Ha He Hb. unfold os_path.join. rewrite Hb, He.
  apply String.eqb_neq in Ha. now rewrite Ha.
Qed.

Lemma endswith_char_false (a : string) (x y : ascii) :
  x <> y -> Str.endswith (a ++ String x "") (String y "") = false.
Proof.
  intros Hne. destruct (Str.endswith _ _) eqn:E; [| reflexivity].
  apply endswith_spec in E as [p Hp]. apply last_char_inj in Hp. contradiction.
Qed.

Lemma startswith_slash_free (s t : string) :
  Str.contains "/" s = false -> Str.startswith t "/" = false ->
  Str.startswith (s ++ t) "/" = false.
Proof.
  destruct s as [|c s]; [now simpl |]. rewrite contains_char_cons.
  intros H _. apply orb_false_elim in H as [H _].
  cbn [String.append Str.startswith]. now rewrite H.
Qed.

(** [os.path.join(dir, sub, file)] on a proper directory. *)
Lemma join3_plain (dir sub file : string) (x : ascii) (sub' : string) :
  dir <> "" -> Str.endswith dir "/" = false ->
  sub = sub' ++ String x "" -> x <> "/"%char ->
  Str.startswith sub "/" = false -> Str.startswith file "/" = false ->
  os_path.join3 dir sub file = dir ++ "/" ++ sub ++ "/" ++ file.
Proof.
  intros Hd He Hs Hx Hsub Hf. unfold os_path.join3.
  rewrite (join_plain dir sub) by assumption.
  rewrite join_plain.
  - now rewrite !append_assoc.
  - destruct dir; [congruence | discriminate].
  - subst sub.
    replace (dir ++ "/" ++ sub' ++ String x "")
      with ((dir ++ "/" ++ sub') ++ String x "") by (now rewrite !append_assoc).
    now apply endswith_char_false.
  - assumption.
Qed.

(** The two sibling paths of the request of an XML file. *)
Lemma xml_request_paths (zip_filepath xml_file : string) :
  exists stem rest,
    nth 0 (Str.split (os_path.basename xml_file) ".") "" = stem /\
    os_path.basename xml_file = stem ++ rest /\
    Str.contains "." stem = false /\ Str.contains "/" stem = false /\
    (rest = "" \/ Str.startswith rest "." = true) /\
    xml_request zip_filepath xml_file =
    MkRequest ("file://" ++ xml_file)
      (list_to_map
         [("package_path", zip_filepath); ("xml_url", xml_file);
          ("pdf_url",
           os_path.join3 (os_path.dirname xml_file) "pdf" (stem ++ ".pdf"));
          ("pdfa_url",
           os_path.join3 (os_path.dirname xml_file) "archival" (stem ++ ".pdf"))])
      parse.
Proof.
  destruct (split_head (os_path.basename xml_file))
    as (stem & rest & Hb & Hdot & Hrest & Hnth).
  destruct (basename_spec xml_file) as (d & _ & _ & Hsl).
  exists stem, rest. repeat split; try assumption.
  - rewrite Hb, contains_char_app in Hsl. now apply orb_false_elim in Hsl as [? _].
  - unfold xml_request. now rewrite Hnth.
Qed.

End SiblingFacts.

Import StrFacts PathFacts NameFacts SiblingFacts.

(** ** The claims on unpacking *)

(** C9. [unzip_files] returns the joined path of every member whose name ends
    with the suffix, in the order of the archive, whatever the disk holds:
    members it skipped because their path existed are returned as well, and
    a second run on the disk the first one left returns the same list. *)
Theorem unzip_files_returns_all_matching
    (z : ZipFile) (target_folder type : string) (disk : Disk) :
  let st := unzip_files z target_folder type disk in
  xml_files st =
    map (os_path.join target_folder)
        (List.filter (fun n => Str.endswith n type) (namelist z))
  /\ (forall path, In path (xml_files st) <->
        exists name p, In name (namelist z) /\ name = p ++ type /\
                       path = os_path.join target_folder name)
  /\ (forall disk', xml_files (unzip_files z target_folder type disk') = xml_files st)
  /\ xml_files (unzip_files z target_folder type (disk_of st)) = xml_files st.
Proof.
  assert (E : forall d, xml_files (unzip_files z target_folder type d) =
    map (os_path.join target_folder)
        (List.filter (fun n => Str.endswith n type) (namelist z))).
  { intros d. unfold unzip_files. now rewrite loop_xml_files. }
  cbv zeta. repeat split.
  - apply E.
  - rewrite E, in_map_iff. intros (name & <- & Hin).
    apply filter_In in Hin as [Hin Hend].
    apply endswith_spec in Hend as [p ->]. eauto.
  - intros (name & p & Hin & -> & ->). rewrite E. apply in_map.
    apply filter_In. split; [assumption | apply endswith_app].
  - intros d. now rewrite !E.
  - now rewrite !E.
Qed.

Lemma unzip_files_returns_all_matching_witness :
  In "/dl/t/b.xml"
     (xml_files (unzip_files [("a.pdf", "A"); ("b.xml", "B")] "/dl/t" ".xml"
                             {["/dl/t/b.xml" := "old"]})).
Proof.
  apply (proj1 (proj2 (unzip_files_returns_all_matching
                         [("a.pdf", "A"); ("b.xml", "B")] "/dl/t" ".xml"
                         {["/dl/t/b.xml" := "old"]}))).
  exists "b.xml", "b". repeat split. simpl. auto.
Defined.



(** ** The claims on [handle_package_ftp] *)

Section HandleFacts.

Lemma join_length (x : string) (l : list string) :
  (length l <= String.length (Str.join "." (x :: l)))%nat.
Proof.
  revert x; induction l as [|y l IH]; intros x; [simpl; lia |].
  change (Str.join "." (x :: y :: l)) with (x ++ "." ++ Str.join "." (y :: l)).
  rewrite !length_append. specialize (IH y). simpl in *. lia.
Qed.

(** The run of [handle_package_ftp] from the target the loop leaves: the
    folder the XML members go to and the requests do not depend on the
    disk. *)
Lemma handle_package_ftp_run (response : Response) (z : ZipFile) :
  exists t e target,
    splitext_loop (S (String.length (body response))) (body response) = Some t /\
    body response = t ++ e /\
    os_path.splitext t = (t, "") /\
    (Str.contains ".pdf" (body response) = false ->
     Str.endswith t "_archival" = false -> target = t) /\
    forall disk, exists h,
      handle_package_ftp response z disk = Some h /\
      requests h =
        (if Str.contains ".xml" (body response)
         then map (xml_request (body response))
                  (map (os_path.join target)
                       (List.filter (fun n => Str.endswith n ".xml") (namelist z)))
         else []) /\
      (Str.contains ".pdf" (body response) = false ->
       Str.endswith t "_archival" = false ->
       Str.contains ".xml" (body response) = true ->
       unzip_calls h = [(t, ".xml")] /\
       final_disk h = disk_of (unzip_files z t ".xml" disk)).
Proof.
  destruct (splitext_loop_total (S (String.length (body response))) (body response))
    as (t & e & Ht & Hfix & He); [lia |].
  exists t, e.
  exists (let t1 := if Str.contains ".pdf" (body response)
                    then os_path.join t "pdf" else t in
          if Str.endswith t1 "_archival" then archival_folder t1 else t1).
  split; [exact Ht |]. split; [exact He |]. split; [exact Hfix |]. split.
  - intros -> H. cbv zeta. now rewrite H.
  - intros disk. unfold handle_package_ftp. rewrite Ht. cbn [mbind option_bind].
    destruct (Str.contains ".pdf" (body response)) eqn:Epdf; cbv zeta;
      [destruct (Str.endswith (os_path.join t "pdf") "_archival") eqn:Earch
      |destruct (Str.endswith t "_archival") eqn:Earch];
      destruct (Str.contains ".xml" (body response)) eqn:Exml;
      eexists; (split; [reflexivity |]);
      cbn [requests unzip_calls final_disk];
      (split;
       [first [ unfold unzip_files; rewrite loop_xml_files; reflexivity
              | reflexivity ] |]);
      intros; try discriminate; auto.
Qed.

End HandleFacts.

(** C6, with every extension stripped. The target directory is what is left
    of the bundle path once [splitext] has been applied until no extension
    remains: the loop ends, on a prefix of the path that carries no
    extension, and the XML members of a bundle that is neither a PDF nor an
    archival one are unpacked there. A bundle name of several dotted parts
    keeps its first part only. *)
Theorem handle_package_ftp_target_strips_all_extensions
    (response : Response) (z : ZipFile) (disk : Disk) :
  exists t e h,
    splitext_loop (S (String.length (body response))) (body response) = Some t /\
    body response = t ++ e /\
    os_path.splitext t = (t, "") /\
    handle_package_ftp response z disk = Some h /\
    (Str.contains ".pdf" (body response) = false ->
     Str.endswith t "_archival" = false ->
     Str.contains ".xml" (body response) = true ->
     unzip_calls h = [(t, ".xml")]) /\
    (forall d stem exts,
       body response = d ++ Str.join "." (stem :: exts) ->
       dir_prefix d -> stem <> "" -> plain stem -> Forall plain exts ->
       t = d ++ stem).
Proof.
  destruct (handle_package_ftp_run response z)
    as (t & e & target & Ht & He & Hfix & _ & Hrun).
  destruct (Hrun disk) as (h & Hh & _ & Hxml).
  exists t, e, h. repeat split; try assumption.
  - intros H1 H2 H3. now destruct (Hxml H1 H2 H3).
  - intros d stem exts Hb Hd Hne Hs Hexts.
    rewrite Hb in Ht.
    rewrite (splitext_loop_dotted d stem exts) in Ht; try assumption.
    + congruence.
    + pose proof (join_length stem exts).
      rewrite length_append. lia.
Qed.

Lemma handle_package_ftp_target_strips_all_extensions_witness :
  exists h,
    handle_package_ftp (MkResponse "ftp://host/pkg.xml.zip" "/dl/pkg.xml.zip" ∅)
                       [("a.xml", "A")] ∅ = Some h /\
    unzip_calls h = [("/dl/pkg", ".xml")].
Proof.
  destruct (handle_package_ftp_target_strips_all_extensions
              (MkResponse "ftp://host/pkg.xml.zip" "/dl/pkg.xml.zip" ∅)
              [("a.xml", "A")] ∅)
    as (t & e & h & Ht & _ & _ & Hh & Hcalls & Hdotted).
  exists h. split; [exact Hh |].
  assert (E : t = "/dl/" ++ "pkg").
  { apply (Hdotted "/dl/" "pkg" ["xml"; "zip"]).
    - reflexivity.
    - right. reflexivity.
    - discriminate.
    - split; reflexivity.
    - repeat constructor. }
  rewrite Hcalls; [now rewrite E | reflexivity | now rewrite E | reflexivity].
Defined.

(** C6 as specified, with the outermost extension only, does not hold: one
    application of [splitext] would send the members of [/dl/pkg.xml.zip]
    under [/dl/pkg.xml]; they go under [/dl/pkg]. *)
Lemma handle_package_ftp_target_counterexample :
  ~ (forall (response : Response) (z : ZipFile) (disk : Disk) (h : handled),
       handle_package_ftp response z disk = Some h ->
       Str.contains ".pdf" (body response) = false ->
       Str.endswith (fst (os_path.splitext (body response))) "_archival" = false ->
       Str.contains ".xml" (body response) = true ->
       unzip_calls h = [(fst (os_path.splitext (body response)), ".xml")]).
Proof.
  intros H.
  specialize (H (MkResponse "ftp://host/pkg.xml.zip" "/dl/pkg.xml.zip" ∅)
                [("a.xml", "A")] ∅ _ eq_refl eq_refl eq_refl eq_refl).
  vm_compute in H. discriminate H.
Qed.

(** C5 at a bundle whose name holds [_archival] twice: the target
    [/dl/oup_archival_2020_archival] ends with [_archival], and the PDF
    members are unpacked under [/dl/oup/archival], the target cut at the
    first [_archival], not under [/dl/oup_archival_2020/archival], the target
    without its suffix. *)
Theorem handle_package_ftp_archival_cut_at_first_occurrence :
  exists h,
    handle_package_ftp
      (MkResponse "ftp://host/oup_archival_2020_archival.zip"
                  "/dl/oup_archival_2020_archival.zip" ∅)
      [("b.pdf", "B")] ∅ = Some h /\
    splitext_loop 35 "/dl/oup_archival_2020_archival.zip"
      = Some "/dl/oup_archival_2020_archival" /\
    Str.endswith "/dl/oup_archival_2020_archival" "_archival" = true /\
    unzip_calls h = [("/dl/oup/archival", ".pdf")] /\
    final_disk h !! "/dl/oup/archival/b.pdf" = Some "B" /\
    final_disk h !! "/dl/oup_archival_2020/archival/b.pdf" = None.
Proof.
  eexists. split; [vm_compute; reflexivity |].
  repeat split; vm_compute; reflexivity.
Qed.

(** Where [find] points: at an occurrence, and at no later one than any
    other. *)
Lemma find_found (s x : string) :
  0 <= Str.find s x -> exists a b, s = a ++ x ++ b /\ Str.len a = Str.find s x.
Proof.
  induction s as [|c s IH]; cbn [Str.find].
  - destruct (Str.startswith "" x) eqn:E; [| lia]. intros _.
    apply startswith_spec in E as [r Hr]. now exists "", r.
  - destruct (Str.startswith (String c s) x) eqn:E.
    + intros _. apply startswith_spec in E as [r Hr]. now exists "", r.
    + destruct (Str.find s x <? 0) eqn:Els; [lia |]. intros _.
      apply Z.ltb_ge in Els. destruct (IH Els) as (a & b & -> & Hlen).
      exists (String c a), b. split; [reflexivity |].
      unfold Str.len in *. simpl String.length. lia.
Qed.

Lemma find_first (a x b : string) :
  0 <= Str.find (a ++ x ++ b) x <= Str.len a.
Proof.
  unfold Str.len. induction a as [|c a IH].
  - cbn [String.append]. assert (E : Str.find (x ++ b) x = 0).
    { destruct (x ++ b) eqn:Exb; cbn [Str.find]; rewrite <- Exb;
        now rewrite startswith_app. }
    rewrite E. simpl. lia.
  - cbn [String.append Str.find].
    destruct (Str.startswith _ x); [simpl String.length; lia |].
    destruct (Str.find (a ++ x ++ b) x <? 0) eqn:Els.
    + apply Z.ltb_lt in Els. lia.
    + simpl String.length. lia.
Qed.

(** The archival folder is cut at the first [_archival] of the target. *)
Lemma archival_folder_first_occurrence (a b : string) :
  (forall a' b', a ++ "_archival" ++ b = a' ++ "_archival" ++ b' ->
                 Str.len a <= Str.len a') ->
  archival_folder (a ++ "_archival" ++ b) = os_path.join a "archival".
Proof.
  intros Hmin. unfold archival_folder.
  pose proof (find_first a "_archival" b) as Hle.
  destruct (find_found (a ++ "_archival" ++ b) "_archival") as (a0 & b0 & E0 & H0);
    [lia |].
  specialize (Hmin a0 b0 E0).
  replace (Str.find (a ++ "_archival" ++ b) "_archival") with (Str.len a) by lia.
  unfold Str.slice_to, Str.len.
  replace (_ <? 0) with false by (symmetry; apply Z.ltb_ge; lia).
  now rewrite Nat2Z.id, take_app.
Qed.

(** Where [_archival] occurs only as the suffix, the archival folder is the
    target without the suffix, joined with [archival]. *)
Lemma archival_folder_single (s : string) :
  Str.find (s ++ "_archival") "_archival" = Str.len s ->
  archival_folder (s ++ "_archival") = os_path.join s "archival".
Proof.
  intros H. unfold archival_folder. rewrite H. unfold Str.slice_to, Str.len.
  replace (_ <? 0) with false by (symmetry; apply Z.ltb_ge; lia).
  now rewrite Nat2Z.id, take_app.
Qed.

(** C8, with the stem cut at the first dot. The requests
    [handle_package_ftp] yields are those of the XML members of the archive,
    one each and in their order, whatever the disk holds: the sibling paths
    are computed, not looked up. Each request carries the bundle path, the
    XML path and the two paths [os.path.join] builds from the directory of
    the XML file, [pdf] or [archival], and the stem with [.pdf], where the
    stem is the basename cut at its first dot. On a directory that is not
    empty and does not end with a slash the two paths are [dir/pdf/stem.pdf]
    and [dir/archival/stem.pdf]. *)
Theorem handle_package_ftp_sibling_paths (response : Response) (z : ZipFile) :
  exists target, forall disk : Disk, exists h,
    handle_package_ftp response z disk = Some h /\
    requests h =
      (if Str.contains ".xml" (body response)
       then map (xml_request (body response))
                (map (os_path.join target)
                     (List.filter (fun n => Str.endswith n ".xml") (namelist z)))
       else []) /\
    forall r, In r (requests h) ->
      exists xml_file stem rest,
        url r = "file://" ++ xml_file /\
        meta r !! "package_path" = Some (body response) /\
        meta r !! "xml_url" = Some xml_file /\
        nth 0 (Str.split (os_path.basename xml_file) ".") "" = stem /\
        os_path.basename xml_file = stem ++ rest /\
        Str.contains "." stem = false /\
        (rest = "" \/ Str.startswith rest "." = true) /\
        meta r !! "pdf_url" =
          Some (os_path.join3 (os_path.dirname xml_file) "pdf" (stem ++ ".pdf")) /\
        meta r !! "pdfa_url" =
          Some (os_path.join3 (os_path.dirname xml_file) "archival" (stem ++ ".pdf")) /\
        (os_path.dirname xml_file <> "" ->
         Str.endswith (os_path.dirname xml_file) "/" = false ->
         meta r !! "pdf_url" =
           Some (os_path.dirname xml_file ++ "/pdf/" ++ stem ++ ".pdf") /\
         meta r !! "pdfa_url" =
           Some (os_path.dirname xml_file ++ "/archival/" ++ stem ++ ".pdf")).
Proof.
  destruct (handle_package_ftp_run response z)
    as (t & e & target & _ & _ & _ & _ & Hrun).
  exists target. intros disk. destruct (Hrun disk) as (h & Hh & Hreq & _).
  exists h. split; [exact Hh |]. split; [exact Hreq |]. intros r Hr.
  assert (Hx : exists x, r = xml_request (body response) x).
  { rewrite Hreq in Hr. destruct (Str.contains ".xml" (body response)); [| destruct Hr].
    apply in_map_iff in Hr as (x & <- & _). now exists x. }
  destruct Hx as [x ->].
  destruct (xml_request_paths (body response) x)
    as (stem & rest & Hnth & Hb & Hdot & Hsl & Hrest & ->).
  exists x, stem, rest. cbn [url meta].
  assert (Hstart : Str.startswith (stem ++ ".pdf") "/" = false)
    by (now apply startswith_slash_free).
  repeat split; try assumption; try reflexivity.
  - rewrite (join3_plain _ "pdf" _ "f" "pd"); try assumption;
      try reflexivity; try discriminate.
  - rewrite (join3_plain _ "archival" _ "l" "archiva"); try assumption;
      try reflexivity; try discriminate.
Qed.

Lemma handle_package_ftp_sibling_paths_witness :
  exists h,
    handle_package_ftp (MkResponse "ftp://host/pkg.xml.zip" "/dl/pkg.xml.zip" ∅)
                       [("ptz001.xml", "A")] ∅ = Some h /\
    exists r, In r (requests h) /\
      meta r !! "pdf_url" = Some "/dl/pkg/pdf/ptz001.pdf" /\
      meta r !! "pdfa_url" = Some "/dl/pkg/archival/ptz001.pdf".
Proof.
  destruct (handle_package_ftp_sibling_paths
              (MkResponse "ftp://host/pkg.xml.zip" "/dl/pkg.xml.zip" ∅)
              [("ptz001.xml", "A")]) as (target & Hrun).
  destruct (Hrun ∅) as (h & Hh & _ & Hreq).
  exists h. split; [exact Hh |].
  assert (Hr : exists r, In r (requests h) /\
                 os_path.dirname "/dl/pkg/ptz001.xml" = "/dl/pkg" /\
                 meta r !! "xml_url" = Some "/dl/pkg/ptz001.xml").
  { vm_compute in Hh. injection Hh as <-.
    eexists. split; [left; reflexivity |]. split; vm_compute; reflexivity. }
  destruct Hr as (r & Hin & Hdir & Hxml). exists r. split; [exact Hin |].
  destruct (Hreq r Hin)
    as (x & stem & rest & _ & _ & Hx & Hstem & _ & _ & _ & _ & _ & Hplain).
  rewrite Hxml in Hx. injection Hx as <-.
  vm_compute in Hstem. subst stem. rewrite Hdir in Hplain.
  apply Hplain; [discriminate | reflexivity].
Defined.

(** C8 as specified, with the basename without its extension, does not hold
    on a name with two dots: for [/dl/pkg/a.b.xml] that basename is [a.b],
    and the request carries [/dl/pkg/pdf/a.pdf]. *)
Lemma handle_package_ftp_sibling_paths_counterexample :
  ~ (forall (response : Response) (z : ZipFile) (disk : Disk) (h : handled) (r : Request),
       handle_package_ftp response z disk = Some h -> In r (requests h) ->
       exists xml_file,
         meta r !! "xml_url" = Some xml_file /\
         meta r !! "pdf_url" =
           Some (os_path.join3 (os_path.dirname xml_file) "pdf"
                   (fst (os_path.splitext (os_path.basename xml_file)) ++ ".pdf"))).
Proof.
  intros H.
  set (response := MkResponse "ftp://host/pkg.xml.zip" "/dl/pkg.xml.zip" ∅).
  set (z := [("a.b.xml", "A")] : ZipFile).
  destruct (handle_package_ftp response z ∅) as [h|] eqn:Hh;
    [| vm_compute in Hh; discriminate].
  assert (Hr : exists r, In r (requests h) /\
                 meta r !! "xml_url" = Some "/dl/pkg/a.b.xml" /\
                 meta r !! "pdf_url" = Some "/dl/pkg/pdf/a.pdf").
  { vm_compute in Hh. injection Hh as <-.
    eexists. split; [left; reflexivity |]. split; vm_compute; reflexivity. }
  destruct Hr as (r & Hin & Hx & Hp).
  destruct (H response z ∅ h r Hh Hin) as (x & Hx' & Hp').
  rewrite Hx in Hx'. injection Hx' as <-.
  rewrite Hp in Hp'. vm_compute in Hp'. discriminate Hp'.
Qed.


Lemma unzip_files_grows (z : ZipFile) (target_folder type : string) (d : Disk) :
  d ⊆ disk_of (unzip_files z target_folder type d).
Proof.
  apply (loop_disk_grows z target_folder type (namelist z) (UnzipState d [] [])).
Qed.



(** ** The claims on remote discovery *)

Section RemoteFacts.

Variable ftp_connection_info :
  option string -> option string -> string * gmap string string.
Variable listdir : string -> string -> string -> string -> list string.
Variable ftp_list_files :
  string -> string -> string -> string -> string -> list string * list string.
Variable strftime_localtime : nat -> string.

Variables (self : Spider) (host : string).

Local Abbreviation zips files := (List.filter (Str.contains ".zip") files).
Local Abbreviation to_ftp r := (callback r = handle_package_ftp_cb).

Lemma file_step_spec (new_download_name f : string)
    (st : gmap string string * list Request) :
  let st' := file_step self host new_download_name st f in
  fst st' !! "ftp_user" = fst st !! "ftp_user" /\
  fst st' !! "ftp_password" = fst st !! "ftp_password" /\
  map url (snd st') = (map url (snd st) ++ map (remote_url host) (zips [f]))%list /\
  (Forall (fun r => to_ftp r) (snd st) -> Forall (fun r => to_ftp r) (snd st')).
Proof.
  destruct st as [params out]. unfold file_step. cbn [List.filter].
  destruct (Str.contains ".zip" f); cbn [fst snd map].
  - rewrite !lookup_insert_ne by discriminate. rewrite map_app. cbn [map url].
    repeat split. intros Hall. apply Forall_app. split; [assumption |].
    now repeat constructor.
  - rewrite app_nil_r. auto.
Qed.

Lemma file_loop_spec (new_download_name : string) (files : list string)
    (st : gmap string string * list Request) :
  let st' := fold_left (file_step self host new_download_name) files st in
  fst st' !! "ftp_user" = fst st !! "ftp_user" /\
  fst st' !! "ftp_password" = fst st !! "ftp_password" /\
  map url (snd st') = (map url (snd st) ++ map (remote_url host) (zips files))%list /\
  (Forall (fun r => to_ftp r) (snd st) -> Forall (fun r => to_ftp r) (snd st')).
Proof.
  revert st; induction files as [|f files IH]; intros st; cbn zeta.
  - simpl. rewrite app_nil_r. auto.
  - cbn [fold_left].
    destruct (IH (file_step self host new_download_name st f)) as (Hu & Hp & Hurl & Hcb).
    destruct (file_step_spec new_download_name f st) as (Hu1 & Hp1 & Hurl1 & Hcb1).
    rewrite Hu, Hp, Hurl, Hu1, Hp1, Hurl1. repeat split; [| auto].
    rewrite <- app_assoc, <- map_app. f_equal. f_equal.
    cbn [List.filter]. now destruct (Str.contains ".zip" f).
Qed.

(** The files [ftp_list_files] reports as new in the folders, in order. *)
Local Abbreviation listed user password folders :=
  (flat_map
     (fun folder =>
        fst (ftp_list_files (os_path.join (ftp_folder self) folder)
               (target_folder self) host user password))
     folders).

Lemma folder_loop_spec (user password : string) (folders : list string) (n : nat)
    (st : gmap string string * list Request) :
  fst st !! "ftp_user" = Some user ->
  fst st !! "ftp_password" = Some password ->
  exists st',
    folder_loop ftp_list_files strftime_localtime self host n folders st = Ok st' /\
    map url (snd st') =
      (map url (snd st) ++ map (remote_url host) (zips (listed user password folders)))%list /\
    (Forall (fun r => to_ftp r) (snd st) -> Forall (fun r => to_ftp r) (snd st')).
Proof.
  revert n st; induction folders as [|folder folders IH]; intros n st Hu Hp.
  - exists st. simpl. rewrite app_nil_r. auto.
  - cbn [folder_loop]. unfold getitem at 1 2. rewrite Hu, Hp. cbn [mbind result_bind].
    destruct (ftp_list_files _ _ _ _ _) as [new_files dummy] eqn:E.
    destruct (file_loop_spec (generate_download_name strftime_localtime n) new_files st)
      as (Hu1 & Hp1 & Hurl1 & Hcb1).
    destruct (IH (S n) (fold_left
                 (file_step self host (generate_download_name strftime_localtime n))
                 new_files st)) as (st' & Hrun & Hurl & Hcb).
    + now rewrite Hu1.
    + now rewrite Hp1.
    + exists st'. split; [exact Hrun |]. split; [| auto].
      rewrite Hurl, Hurl1. cbn [flat_map]. rewrite E. cbn [fst].
      rewrite <- app_assoc, <- map_app. f_equal. f_equal.
      symmetry. apply List.filter_app.
Qed.

End RemoteFacts.

(** C10. In remote discovery (no package path), [start_requests] yields, in
    the order of the listing, one download request for each file reported as
    new whose path has [.zip] somewhere in it, and for no other file: the
    test is for a substring, not for a suffix. *)
Theorem start_requests_downloads_by_substring
    (ftp_connection_info : option string -> option string -> string * gmap string string)
    (listdir : string -> string -> string -> string -> list string)
    (ftp_list_files :
       string -> string -> string -> string -> string -> list string * list string)
    (strftime_localtime : nat -> string)
    (self : Spider) (host user password : string) (ftp_params : gmap string string) :
  package_path self = None \/ package_path self = Some "" ->
  ftp_connection_info (ftp_host self) (ftp_netrc self) = (host, ftp_params) ->
  ftp_params !! "ftp_user" = Some user ->
  ftp_params !! "ftp_password" = Some password ->
  let listed :=
    flat_map
      (fun folder =>
         fst (ftp_list_files (os_path.join (ftp_folder self) folder)
                (target_folder self) host user password))
      (ftp_list_folders listdir (ftp_folder self) host user password) in
  exists reqs,
    start_requests ftp_connection_info listdir ftp_list_files strftime_localtime self
      = Ok reqs /\
    map url reqs = map (remote_url host) (List.filter (Str.contains ".zip") listed) /\
    (forall f, In (remote_url host f) (map url reqs) <->
               In f listed /\ exists a b, f = a ++ ".zip" ++ b) /\
    Forall (fun r => callback r = handle_package_ftp_cb) reqs.
Proof.
  intros Hmode Hinfo Hu Hp listed.
  destruct (folder_loop_spec ftp_list_files strftime_localtime self host user password
              (ftp_list_folders listdir (ftp_folder self) host user password) 0
              (ftp_params, []) Hu Hp) as (st' & Hrun & Hurl & Hcb).
  change (map url (snd (ftp_params, @nil Request))) with (@nil string) in Hurl.
  rewrite app_nil_l in Hurl.
  exists (snd st').
  assert (Hstart :
    start_requests ftp_connection_info listdir ftp_list_files strftime_localtime self
      = Ok (snd st')).
  { unfold start_requests.
    destruct Hmode as [-> | ->]; rewrite Hinfo; unfold getitem at 1 2;
      rewrite Hu, Hp; cbn [mbind result_bind]; now rewrite Hrun. }
  split; [exact Hstart |]. split; [exact Hurl |]. split; [| apply Hcb; constructor].
  intros f. rewrite Hurl, in_map_iff. split.
  - intros (f' & Heq & Hin). unfold remote_url in Heq.
    do 3 apply (inj (String.append _)) in Heq. subst f'.
    apply filter_In in Hin as [Hin Hzip]. split; [exact Hin |].
    now apply contains_spec.
  - intros [Hin Hzip]. exists f. split; [reflexivity |].
    apply filter_In. split; [exact Hin |]. now apply contains_spec.
Qed.

Lemma start_requests_downloads_by_substring_witness :
  exists reqs,
    start_requests
      (fun _ _ => ("ftp.example.org",
                   <["ftp_user" := "u"]> (<["ftp_password" := "p"]> ∅)))
      (fun _ _ _ _ => ["2022"; ".hidden"])
      (fun _ _ _ _ _ => (["hooks/2022/x.zip.bak"; "hooks/2022/readme.txt"], []))
      (fun _ => "2022-01-01_00:00:00")
      (MkSpider "OUP" "hooks" None None "/dl" None) = Ok reqs /\
    In "ftp://ftp.example.org/hooks/2022/x.zip.bak" (map url reqs) /\
    ~ In "ftp://ftp.example.org/hooks/2022/readme.txt" (map url reqs).
Proof.
  destruct (start_requests_downloads_by_substring
              (fun _ _ => ("ftp.example.org",
                           <["ftp_user" := "u"]> (<["ftp_password" := "p"]> ∅)))
              (fun _ _ _ _ => ["2022"; ".hidden"])
              (fun _ _ _ _ _ => (["hooks/2022/x.zip.bak"; "hooks/2022/readme.txt"], []))
              (fun _ => "2022-01-01_00:00:00")
              (MkSpider "OUP" "hooks" None None "/dl" None)
              "ftp.example.org" "u" "p"
              (<["ftp_user" := "u"]> (<["ftp_password" := "p"]> ∅))
              (or_introl eq_refl) eq_refl)
    as (reqs & Hrun & _ & Hiff & _); [vm_compute; reflexivity .. |].
  exists reqs. split; [exact Hrun |]. split.
  - apply (Hiff "hooks/2022/x.zip.bak"). split.
    + left. reflexivity.
    + exists "hooks/2022/x", ".bak". reflexivity.
  - intros Hin. apply (Hiff "hooks/2022/readme.txt") in Hin as [_ (a & b & Hab)].
    assert (Hc : Str.contains ".zip" "hooks/2022/readme.txt" = true)
      by (apply contains_spec; eauto).
    vm_compute in Hc. discriminate Hc.
Defined.

(** ** The claims on the record extractor *)

Lemma first_nonempty_some (texts : list string) (ar : string) :
  first_nonempty texts = Some ar <->
  exists before after,
    texts = (before ++ ar :: after)%list /\ Forall (fun t => t = "") before /\ ar <> "".
Proof.
  induction texts as [|t texts IH]; simpl.
  - split; [discriminate |]. intros (before & after & H & _).
    destruct before; discriminate.
  - destruct (String.eqb_spec t "") as [-> | Hne]; simpl.
    + rewrite IH. split.
      * intros (before & after & -> & Hall & Hne). exists ("" :: before), after.
        repeat split; [constructor |]; auto.
      * intros (before & after & H & Hall & Hne).
        destruct before as [|b before]; simpl in H; inversion H; subst.
        -- congruence.
        -- exists before, after. inversion Hall; subst. auto.
    + split.
      * intros [= <-]. exists [], texts. auto.
      * intros (before & after & H & Hall & _).
        destruct before as [|b before]; simpl in H; inversion H; subst.
        -- reflexivity.
        -- inversion Hall; subst. congruence.
Qed.

Lemma first_nonempty_none (texts : list string) :
  first_nonempty texts = None <-> Forall (fun t => t = "") texts.
Proof.
  induction texts as [|t texts IH]; simpl.
  - split; auto.
  - destruct (String.eqb_spec t "") as [-> | Hne]; simpl.
    + rewrite IH. split; [auto | now inversion 1].
    + split; [discriminate | inversion 1; congruence].
Qed.

(** C7. [get_arxiv] returns the first string that is not empty among the
    text nodes the query for the arXiv identifiers selects, in their order,
    and [None] when there is none: no node at all, or empty ones only. *)
Theorem get_arxiv_first_nonempty (node : Selector) :
  let texts := xpath node "//article-id[@pub-id-type='arxiv']/text()" in
  (forall ar,
     get_arxiv node = Some ar <->
     exists before after,
       texts = (before ++ ar :: after)%list /\
       Forall (fun t => t = "") before /\ ar <> "")
  /\ (get_arxiv node = None <-> Forall (fun t => t = "") texts).
Proof.
  cbv zeta. unfold get_arxiv. split.
  - intros ar. apply first_nonempty_some.
  - apply first_nonempty_none.
Qed.

Lemma get_arxiv_first_nonempty_witness :
  get_arxiv (MkSelector (fun _ => [""; "1901.00001"; "2002.00002"]))
    = Some "1901.00001".
Proof.
  apply (proj1 (get_arxiv_first_nonempty
                  (MkSelector (fun _ => [""; "1901.00001"; "2002.00002"])))).
  exists [""], ["2002.00002"]. repeat split; [| discriminate].
  repeat constructor.
Defined.

Lemma one_char_not_allowed (c : ascii) :
  Py.in_strs (PStr (String c "")) allowed_article_types = false.
Proof.
  unfold Py.in_strs, allowed_article_types. cbn [existsb String.eqb].
  repeat match goal with
         | |- context [if ?b then false else false] =>
             replace (if b then false else false) with false by (now destruct b)
         end.
  reflexivity.
Qed.




Section ExtractorFacts.

Variable _get_authors : Selector -> pyval.
Variable _get_keywords : Selector -> pyval * pyval.
Variable _get_published_date : Selector -> string.
Variable get_license : option string -> pyval.

Local Abbreviation run_from :=
  (parse_node_from _get_authors _get_keywords _get_published_date get_license).
Local Abbreviation run :=
  (parse_node _get_authors _get_keywords _get_published_date get_license).

(** [lower()] is called on the list [extract()] returned. *)
Lemma parse_node_raises (self : Spider) (response : Response) (node : Selector) :
  run self response node = Raise AttributeError.
Proof. reflexivity. Qed.

(** Whatever [extract()] returned, no record comes out: a list, [None] or
    a number has no [lower]; of a string the first character is looked up
    among the allowed types. *)
Lemma parse_node_from_no_record (extracted : pyval) (self self' : Spider)
    (response : Response) (node : Selector) (record : Loader) :
  run_from extracted self response node <> Ok (self', Some record).
Proof.
  unfold parse_node_from. destruct extracted as [|s|n|l|d]; try discriminate.
  cbn [Py.lower mbind result_bind Py.is_None].
  destruct (Str.lower s) as [|c r]; [discriminate |].
  cbn [Py.getitem0 mbind result_bind]. rewrite one_char_not_allowed.
  discriminate.
Qed.

(** Had [extract()] returned a string, every document would have been
    filtered out, the allowed ones too, and an empty attribute would have
    raised [IndexError]. *)
Lemma parse_node_from_string (s : string) (self : Spider)
    (response : Response) (node : Selector) :
  run_from (PStr s) self response node =
  if String.eqb s "" then Raise IndexError else Ok (self, None).
Proof.
  unfold parse_node_from. cbn [Py.lower mbind result_bind Py.is_None].
  destruct s as [|c r]; [reflexivity |]. cbn [Str.lower Py.getitem0 mbind result_bind].
  now rewrite one_char_not_allowed.
Qed.

End ExtractorFacts.

(** Every allowed article type has its entry in the mapping, and none maps
    to the default. *)
Lemma article_type_mapping_covers_allowed (t : string) :
  In t allowed_article_types ->
  exists doctype,
    article_type_mapping !! t = Some doctype /\
    Py.dict_get article_type_mapping (PStr t) default_article_type = Ok doctype /\
    doctype <> default_article_type /\
    In doctype ["article"; "corrigendum"; "addendum"; "other"].
Proof.
  unfold allowed_article_types. intros H.
  repeat (destruct H as [<- | H];
          [eexists; split; [vm_compute; reflexivity |];
           split; [vm_compute; reflexivity |];
           split; [discriminate | simpl; tauto] |]).
  destruct H.
Qed.

(** C1 at every document: [parse_node] raises [AttributeError], for the list
    that [extract()] returns has no [lower]. It does not return [None] for a
    document without article type or with one outside the allowed list. *)
Theorem parse_node_gate_raises
    (_get_authors : Selector -> pyval) (_get_keywords : Selector -> pyval * pyval)
    (_get_published_date : Selector -> string) (get_license : option string -> pyval)
    (self : Spider) (response : Response) (node : Selector) :
  parse_node _get_authors _get_keywords _get_published_date get_license
    self response node = Raise AttributeError
  /\ parse_node _get_authors _get_keywords _get_published_date get_license
       self response node <> Ok (self, None).
Proof.
  rewrite parse_node_raises. split; [reflexivity | discriminate].
Qed.

(** C2 at a document of the allowed type [research-article]: [parse_node]
    raises [AttributeError] and emits no record, so no [doctype] and no
    [original_doctype] either; and whatever value the extraction of the
    article type had produced, the rest of the function would not have
    emitted one. *)
Theorem parse_node_allowed_type_no_record
    (_get_authors : Selector -> pyval) (_get_keywords : Selector -> pyval * pyval)
    (_get_published_date : Selector -> string) (get_license : option string -> pyval)
    (self : Spider) (response : Response) :
  let node :=
    MkSelector (fun q => if String.eqb q "@article-type"
                         then ["research-article"] else []) in
  In "research-article" allowed_article_types
  /\ article_type_mapping !! "research-article" = Some "article"
  /\ parse_node _get_authors _get_keywords _get_published_date get_license
       self response node = Raise AttributeError
  /\ (forall extracted self' record,
        parse_node_from _get_authors _get_keywords _get_published_date get_license
          extracted self response node <> Ok (self', Some record)).
Proof.
  cbv zeta. split; [simpl; tauto |]. split; [vm_compute; reflexivity |].
  split; [apply parse_node_raises |].
  intros extracted self' record. apply parse_node_from_no_record.
Qed.




(** ** More on unpacking *)

Section UnzipContents.

Variables (z : ZipFile) (target_folder type : string) (disk : Disk).

Local Abbreviation step := (unzip_step z target_folder type).
Local Abbreviation path_of := (os_path.join target_folder).

(** What the loop keeps true of its state, from the disk it started on:
    the disk holds what it held and the files extracted so far, each of
    these once and with the bytes of its member. *)
Local Abbreviation kept st :=
  ((forall p, is_Some (disk_of st !! p) <->
              is_Some (disk !! p) \/ In p (map path_of (extracted st)))
   /\ NoDup (map path_of (extracted st))
   /\ (forall n, In n (extracted st) ->
         Str.endswith n type = true /\
         disk !! path_of n = None /\
         disk_of st !! path_of n = Some (member_data z n))).




End UnzipContents.







(** ** More on [handle_package_ftp] *)


Lemma unzip_files_present (z : ZipFile) (target_folder type : string) (disk : Disk)
    (n : string) :
  In n (namelist z) -> Str.endswith n type = true ->
  is_Some (disk_of (unzip_files z target_folder type disk)
             !! os_path.join target_folder n).
Proof.
  intros Hin He. apply exists_on_true. unfold unzip_files.
  apply loop_all_present. apply filter_In. now split.
Qed.


Ltac sub_chain :=
  repeat first [ reflexivity | etransitivity; [| apply unzip_files_grows] ].







(** ** The bundles of one issue *)

Module IssueFacts.

Lemma string_last (s : string) :
  s <> "" -> exists s' c, s = s' ++ String c "".
Proof.
  induction s as [|a s IH]; [congruence |]. intros _.
  destruct s as [|b s].
  - now exists "", a.
  - destruct IH as (s' & c & E); [discriminate |].
    exists (String a s'), c. simpl. now rewrite E.
Qed.

Lemma endswith_slash_free (d s : string) :
  s <> "" -> Str.contains "/" s = false -> Str.endswith (d ++ s) "/" = false.
Proof.
  intros Hne Hs. destruct (string_last s Hne) as (s' & c & ->).
  rewrite contains_char_app, contains_char_cons in Hs.
  apply orb_false_elim in Hs as [_ Hs]. apply orb_false_elim in Hs as [Hc _].
  rewrite <- append_assoc. apply endswith_char_false.
  intros ->. discriminate.
Qed.

Lemma rstrip_app_char (a : string) (c : ascii) :
  Str.rstrip (a ++ String c "") c = Str.rstrip a c.
Proof.
  induction a as [|x a IH].
  - cbn. now rewrite Ascii.eqb_refl.
  - cbn [String.append Str.rstrip]. now rewrite IH.
Qed.

Lemma rstrip_id (a : string) (c : ascii) :
  a = "" \/ Str.endswith a (String c "") = false -> Str.rstrip a c = a.
Proof.
  induction a as [|x a IH]; [reflexivity |]. intros [H | H]; [discriminate |].
  rewrite endswith_unfold in H.
  destruct (String.eqb_spec (String x a) (String c "")) as [E | Hne]; [discriminate |].
  cbn [Str.rstrip]. destruct a as [|y a].
  - cbn. destruct (Ascii.eqb_spec x c) as [-> | _]; [congruence | reflexivity].
  - rewrite IH by now right. reflexivity.
Qed.

Lemma repeat_all (t : string) (c : ascii) :
  t ++ String c "" = Str.repeat c (S (String.length t)) ->
  t = "" \/ Str.endswith t (String c "") = true.
Proof.
  induction t as [|x t IH]; [now left |]. intros H. right.
  cbn in H. injection H as -> H. apply endswith_spec.
  destruct (IH H) as [-> | He]; [now exists "" |].
  apply endswith_spec in He as [p ->]. now exists (String c p).
Qed.

(** [dirname] and [basename] of a file in a directory. *)
Lemma dirname_in_dir (t b : string) :
  t <> "" -> Str.endswith t "/" = false -> Str.contains "/" b = false ->
  os_path.dirname (t ++ "/" ++ b) = t /\ os_path.basename (t ++ "/" ++ b) = b.
Proof.
  intros Ht He Hb.
  assert (Hr : Str.rfind (t ++ String "/" b) "/" = Str.len t) by now apply rfind_last.
  cbn [String.append] in *.
  unfold os_path.dirname, os_path.basename, Str.slice_to, Str.slice_from.
  rewrite Hr. unfold Str.len.
  replace (_ <? 0) with false by (symmetry; apply Z.ltb_ge; lia).
  replace (Z.to_nat (Z.of_nat (String.length t) + 1))
    with (String.length (t ++ "/")) by (rewrite length_append; simpl; lia).
  replace (t ++ String "/" b) with ((t ++ "/") ++ b) by now rewrite append_assoc.
  rewrite take_app, drop_app. split; [| reflexivity].
  assert (E1 : String.eqb (t ++ "/") "" = false)
    by (apply String.eqb_neq; destruct t; discriminate).
  assert (E2 : String.eqb (t ++ "/") (Str.repeat "/" (String.length (t ++ "/"))) = false).
  { apply String.eqb_neq. intros E. rewrite length_append in E. simpl in E.
    replace (String.length t + 1)%nat with (S (String.length t)) in E by lia.
    apply repeat_all in E as [E | E]; congruence. }
  rewrite E1, E2. cbn [negb andb].
  rewrite rstrip_app_char. apply rstrip_id. now right.
Qed.

Lemma split_first (n r : string) :
  Str.contains "." n = false ->
  nth 0 (Str.split (n ++ String "." r) ".") "" = n.
Proof.
  induction n as [|a n IH]; intros H.
  - cbn. reflexivity.
  - rewrite contains_char_cons in H. apply orb_false_elim in H as [Ha Hn].
    cbn [String.append Str.split]. rewrite Ascii.eqb_sym, Ha.
    specialize (IH Hn). destruct (Str.split _ _); cbn in *; now subst.
Qed.

Lemma pdf_folder_not_archival (t s : string) :
  Str.endswith (t ++ s ++ "pdf") "_archival" = false.
Proof.
  destruct (Str.endswith _ _) eqn:E; [| reflexivity].
  apply endswith_spec in E as [p Hp].
  replace (t ++ s ++ "pdf") with ((t ++ s ++ "pd") ++ "f") in Hp
    by (now rewrite !append_assoc).
  replace (p ++ "_archival") with ((p ++ "_archiva") ++ "l") in Hp
    by (now rewrite !append_assoc).
  apply last_char_inj in Hp. discriminate.
Qed.

End IssueFacts.

Import IssueFacts.

(** The PDF members of a bundle whose path contains [.pdf] are on the disk,
    when the run is over, below the folder [pdf] of the target. *)
Lemma handle_package_ftp_pdf_members
    (response : Response) (z : ZipFile) (disk : Disk) (t : string) :
  splitext_loop (S (String.length (body response))) (body response) = Some t ->
  Str.contains ".pdf" (body response) = true ->
  exists h,
    handle_package_ftp response z disk = Some h /\
    In (os_path.join t "pdf", ".pdf") (unzip_calls h) /\
    forall n, In n (namelist z) -> Str.endswith n ".pdf" = true ->
              is_Some (final_disk h !! os_path.join (os_path.join t "pdf") n).
Proof.
  intros Ht Hpdf. unfold handle_package_ftp. rewrite Ht, Hpdf.
  cbn [mbind option_bind].
  destruct (Str.endswith (os_path.join t "pdf") "_archival");
    destruct (Str.contains ".xml" (body response));
    eexists; (split; [reflexivity |]); cbn [final_disk unzip_calls];
    (split; [cbn [In app]; tauto |]); intros n Hin He;
    (eapply lookup_weaken_is_Some;
     [apply (unzip_files_present z (os_path.join t "pdf") ".pdf" disk n Hin He)
     | sub_chain]).
Qed.

(** The PDF members of an archival bundle are on the disk, when the run is
    over, below the archival folder of the target. *)
Lemma handle_package_ftp_archival_members
    (response : Response) (z : ZipFile) (disk : Disk) (t : string) :
  splitext_loop (S (String.length (body response))) (body response) = Some t ->
  Str.contains ".pdf" (body response) = false ->
  Str.endswith t "_archival" = true ->
  exists h,
    handle_package_ftp response z disk = Some h /\
    In (archival_folder t, ".pdf") (unzip_calls h) /\
    forall n, In n (namelist z) -> Str.endswith n ".pdf" = true ->
              is_Some (final_disk h !! os_path.join (archival_folder t) n).
Proof.
  intros Ht Hpdf Harch. unfold handle_package_ftp. rewrite Ht, Hpdf.
  cbn [mbind option_bind]. cbv beta iota zeta. rewrite Harch.
  destruct (Str.contains ".xml" (body response));
    eexists; (split; [reflexivity |]); cbn [final_disk unzip_calls];
    (split; [cbn [In app]; tauto |]); intros n Hin He;
    (eapply lookup_weaken_is_Some;
     [apply (unzip_files_present z (archival_folder t) ".pdf" disk n Hin He)
     | sub_chain]).
Qed.

(** The request of the XML member [n.xml] of the XML bundle of an issue. *)
Lemma handle_package_ftp_xml_member
    (response : Response) (z : ZipFile) (disk : Disk) (t n : string) :
  splitext_loop (S (String.length (body response))) (body response) = Some t ->
  Str.contains ".pdf" (body response) = false ->
  Str.endswith t "_archival" = false ->
  Str.contains ".xml" (body response) = true ->
  t <> "" -> Str.endswith t "/" = false -> plain n ->
  In (n ++ ".xml") (namelist z) ->
  exists h r,
    handle_package_ftp response z disk = Some h /\
    In r (requests h) /\
    meta r !! "xml_url" = Some (t ++ "/" ++ n ++ ".xml") /\
    meta r !! "pdf_url" = Some (os_path.join (os_path.join t "pdf") (n ++ ".pdf")) /\
    meta r !! "pdfa_url" = Some (os_path.join (os_path.join t "archival") (n ++ ".pdf")).
Proof.
  intros Ht Hpdf Harch Hxml Hne Hsl [Hdot Hns] Hin.
  destruct (handle_package_ftp_run response z)
    as (t' & e & target & Ht' & _ & _ & Htarget & Hrun).
  rewrite Ht in Ht'. injection Ht' as <-.
  specialize (Htarget Hpdf Harch). subst target.
  destruct (Hrun disk) as (h & Hh & Hreq & _). rewrite Hxml in Hreq.
  exists h, (xml_request (body response) (os_path.join t (n ++ ".xml"))).
  split; [exact Hh |]. split.
  - rewrite Hreq. apply in_map, in_map, filter_In. split; [exact Hin |].
    apply endswith_app.
  - assert (Hstart : Str.startswith (n ++ ".xml") "/" = false)
      by now apply startswith_slash_free.
    rewrite (join_plain t (n ++ ".xml")) by assumption.
    assert (Hb : Str.contains "/" (n ++ ".xml") = false)
      by (rewrite contains_char_app, Hns; reflexivity).
    destruct (dirname_in_dir t (n ++ ".xml") Hne Hsl Hb) as [Hdir Hbase].
    unfold xml_request. rewrite Hdir, Hbase.
    change (n ++ ".xml") with (n ++ String "." "xml") at 2 3.
    rewrite (split_first n "xml" Hdot). unfold os_path.join3.
    repeat split; reflexivity.
Qed.

Lemma issue_targets (d stem : string) (exts : list string) (p : string) :
  dir_prefix d -> stem <> "" -> plain stem -> Forall plain exts ->
  p = d ++ Str.join "." (stem :: exts) ->
  splitext_loop (S (String.length p)) p = Some (d ++ stem) /\
  d ++ stem <> "" /\ Str.endswith (d ++ stem) "/" = false.
Proof.
  intros Hd Hne Hs Hexts ->. split; [| split].
  - apply splitext_loop_dotted; try assumption.
    pose proof (join_length stem exts). rewrite length_append. lia.
  - destruct d; [exact Hne | discriminate].
  - apply endswith_slash_free; [exact Hne | apply Hs].
Qed.

(** X6. The PDF path an XML task carries is where the PDF bundle of the same
    issue unpacks the PDF of the same name. For the bundles [stem.pdf.zip]
    and [stem.xml.zip] of one directory and the members [n.pdf] and [n.xml],
    the request of [n.xml] carries [stem/pdf/n.pdf], and that file is on the
    disk once the PDF bundle is handled. *)
Theorem pdf_sibling_is_unpacked_pdf
    (pdf_response xml_response : Response) (zpdf zxml : ZipFile)
    (disk_pdf disk_xml : Disk) (d stem n : string) :
  body pdf_response = d ++ stem ++ ".pdf.zip" ->
  body xml_response = d ++ stem ++ ".xml.zip" ->
  dir_prefix d -> stem <> "" -> plain stem -> plain n ->
  Str.contains ".pdf" (d ++ stem ++ ".xml.zip") = false ->
  Str.endswith (d ++ stem) "_archival" = false ->
  In (n ++ ".pdf") (namelist zpdf) -> In (n ++ ".xml") (namelist zxml) ->
  exists hp hx r,
    handle_package_ftp pdf_response zpdf disk_pdf = Some hp /\
    handle_package_ftp xml_response zxml disk_xml = Some hx /\
    In r (requests hx) /\
    meta r !! "xml_url" = Some (d ++ stem ++ "/" ++ n ++ ".xml") /\
    meta r !! "pdf_url" = Some (d ++ stem ++ "/pdf/" ++ n ++ ".pdf") /\
    is_Some (final_disk hp !! (d ++ stem ++ "/pdf/" ++ n ++ ".pdf")).
Proof.
  intros Hbp Hbx Hd Hne Hs Hn Hnopdf Hnoarch Hinp Hinx.
  destruct (issue_targets d stem ["pdf"; "zip"] (body pdf_response))
    as (Htp & Ht & Hsl); try assumption;
    [repeat constructor |].
  destruct (issue_targets d stem ["xml"; "zip"] (body xml_response))
    as (Htx & _ & _); try assumption;
    [repeat constructor |].
  assert (Hpdf : Str.contains ".pdf" (body pdf_response) = true).
  { apply contains_spec. exists (d ++ stem), ".zip". rewrite Hbp.
    now rewrite !append_assoc. }
  assert (Hxml : Str.contains ".xml" (body xml_response) = true).
  { apply contains_spec. exists (d ++ stem), ".zip". rewrite Hbx.
    now rewrite !append_assoc. }
  destruct (handle_package_ftp_pdf_members pdf_response zpdf disk_pdf _ Htp Hpdf)
    as (hp & Hhp & _ & Hon).
  destruct (handle_package_ftp_xml_member xml_response zxml disk_xml (d ++ stem) n)
    as (hx & r & Hhx & Hr & Hx & Hp & _); try assumption;
    [now rewrite Hbx |].
  assert (Hstart : Str.startswith (n ++ ".pdf") "/" = false)
    by (apply startswith_slash_free; [apply Hn | reflexivity]).
  assert (E : os_path.join (os_path.join (d ++ stem) "pdf") (n ++ ".pdf")
              = d ++ stem ++ "/pdf/" ++ n ++ ".pdf").
  { change (os_path.join (os_path.join (d ++ stem) "pdf") (n ++ ".pdf"))
      with (os_path.join3 (d ++ stem) "pdf" (n ++ ".pdf")).
    rewrite (join3_plain _ "pdf" _ "f" "pd"); try assumption;
      try reflexivity; try discriminate.
    now rewrite !append_assoc. }
  exists hp, hx, r. rewrite <- E. repeat split; try assumption.
  - rewrite Hx. now rewrite !append_assoc.
  - apply Hon; [exact Hinp | apply endswith_app].
Qed.

Lemma pdf_sibling_is_unpacked_pdf_witness :
  exists hp hx r,
    handle_package_ftp (MkResponse "" "/dl/iss1.pdf.zip" ∅) [("ptz001.pdf", "P")] ∅
      = Some hp /\
    handle_package_ftp (MkResponse "" "/dl/iss1.xml.zip" ∅) [("ptz001.xml", "X")] ∅
      = Some hx /\
    In r (requests hx) /\
    meta r !! "pdf_url" = Some "/dl/iss1/pdf/ptz001.pdf" /\
    is_Some (final_disk hp !! "/dl/iss1/pdf/ptz001.pdf").
Proof.
  destruct (pdf_sibling_is_unpacked_pdf
              (MkResponse "" "/dl/iss1.pdf.zip" ∅) (MkResponse "" "/dl/iss1.xml.zip" ∅)
              [("ptz001.pdf", "P")] [("ptz001.xml", "X")] ∅ ∅ "/dl/" "iss1" "ptz001")
    as (hp & hx & r & Hhp & Hhx & Hr & _ & Hp & Hon);
    try reflexivity; try discriminate;
    try (split; reflexivity); try (right; reflexivity); try (left; reflexivity).
  now exists hp, hx, r.
Defined.

(** X7. The archival path an XML task carries is where the archival bundle of
    the same issue unpacks the PDF of the same name, provided [_archival]
    occurs in the target of that bundle as its suffix only. For the bundles
    [stem_archival.zip] and [stem.xml.zip] of one directory and the members
    [n.pdf] and [n.xml], the request of [n.xml] carries
    [stem/archival/n.pdf], and that file is on the disk once the archival
    bundle is handled. *)
Theorem archival_sibling_is_unpacked_pdf
    (archival_response xml_response : Response) (zarc zxml : ZipFile)
    (disk_arc disk_xml : Disk) (d stem n : string) :
  body archival_response = d ++ stem ++ "_archival.zip" ->
  body xml_response = d ++ stem ++ ".xml.zip" ->
  dir_prefix d -> stem <> "" -> plain stem -> plain n ->
  Str.contains ".pdf" (d ++ stem ++ "_archival.zip") = false ->
  Str.find ((d ++ stem) ++ "_archival") "_archival" = Str.len (d ++ stem) ->
  Str.contains ".pdf" (d ++ stem ++ ".xml.zip") = false ->
  Str.endswith (d ++ stem) "_archival" = false ->
  In (n ++ ".pdf") (namelist zarc) -> In (n ++ ".xml") (namelist zxml) ->
  exists ha hx r,
    handle_package_ftp archival_response zarc disk_arc = Some ha /\
    handle_package_ftp xml_response zxml disk_xml = Some hx /\
    In r (requests hx) /\
    meta r !! "xml_url" = Some (d ++ stem ++ "/" ++ n ++ ".xml") /\
    meta r !! "pdfa_url" = Some (d ++ stem ++ "/archival/" ++ n ++ ".pdf") /\
    is_Some (final_disk ha !! (d ++ stem ++ "/archival/" ++ n ++ ".pdf")).
Proof.
  intros Hba Hbx Hd Hne Hs Hn Hnopdfa Hfind Hnopdf Hnoarch Hina Hinx.
  destruct (issue_targets d (stem ++ "_archival") ["zip"] (body archival_response))
    as (Hta & _ & _); try assumption.
  { destruct stem; [congruence | discriminate]. }
  { destruct Hs as [Hdot Hsl]. split; rewrite contains_char_app; [rewrite Hdot | rewrite Hsl];
      reflexivity. }
  { repeat constructor. }
  { rewrite Hba. cbn [Str.join]. now rewrite !append_assoc. }
  destruct (issue_targets d stem ["xml"; "zip"] (body xml_response))
    as (Htx & Ht & Hsl); try assumption;
    [repeat constructor |].
  assert (Hxml : Str.contains ".xml" (body xml_response) = true).
  { apply contains_spec. exists (d ++ stem), ".zip". rewrite Hbx.
    now rewrite !append_assoc. }
  rewrite <- append_assoc in Hta.
  destruct (handle_package_ftp_archival_members archival_response zarc disk_arc _ Hta)
    as (ha & Hha & _ & Hon).
  { now rewrite Hba. }
  { apply endswith_app. }
  rewrite (archival_folder_single _ Hfind) in Hon.
  destruct (handle_package_ftp_xml_member xml_response zxml disk_xml (d ++ stem) n)
    as (hx & r & Hhx & Hr & Hx & _ & Hp); try assumption;
    [now rewrite Hbx |].
  assert (Hstart : Str.startswith (n ++ ".pdf") "/" = false)
    by (apply startswith_slash_free; [apply Hn | reflexivity]).
  assert (E : os_path.join (os_path.join (d ++ stem) "archival") (n ++ ".pdf")
              = d ++ stem ++ "/archival/" ++ n ++ ".pdf").
  { change (os_path.join (os_path.join (d ++ stem) "archival") (n ++ ".pdf"))
      with (os_path.join3 (d ++ stem) "archival" (n ++ ".pdf")).
    rewrite (join3_plain _ "archival" _ "l" "archiva"); try assumption;
      try reflexivity; try discriminate.
    now rewrite !append_assoc. }
  exists ha, hx, r. rewrite <- E. repeat split; try assumption.
  - rewrite Hx. now rewrite !append_assoc.
  - apply Hon; [exact Hina | apply endswith_app].
Qed.

Lemma archival_sibling_is_unpacked_pdf_witness :
  exists ha hx r,
    handle_package_ftp (MkResponse "" "/dl/iss1_archival.zip" ∅) [("ptz001.pdf", "P")] ∅
      = Some ha /\
    handle_package_ftp (MkResponse "" "/dl/iss1.xml.zip" ∅) [("ptz001.xml", "X")] ∅
      = Some hx /\
    In r (requests hx) /\
    meta r !! "pdfa_url" = Some "/dl/iss1/archival/ptz001.pdf" /\
    is_Some (final_disk ha !! "/dl/iss1/archival/ptz001.pdf").
Proof.
  destruct (archival_sibling_is_unpacked_pdf
              (MkResponse "" "/dl/iss1_archival.zip" ∅)
              (MkResponse "" "/dl/iss1.xml.zip" ∅)
              [("ptz001.pdf", "P")] [("ptz001.xml", "X")] ∅ ∅ "/dl/" "iss1" "ptz001")
    as (ha & hx & r & Hha & Hhx & Hr & _ & Hp & Hon);
    try reflexivity; try discriminate;
    try (split; reflexivity); try (right; reflexivity); try (left; reflexivity).
  now exists ha, hx, r.
Defined.

(** ** More on remote discovery *)



Section RemoteMeta.

Variable ftp_connection_info :
  option string -> option string -> string * gmap string string.
Variable listdir : string -> string -> string -> string -> list string.
Variable ftp_list_files :
  string -> string -> string -> string -> string -> list string * list string.
Variable strftime_localtime : nat -> string.

Variables (self : Spider) (host user password : string).

(** A request for a file of a folder, stamped with a reading of the
    clock. *)
Local Abbreviation for_file stamp files r :=
  (exists f,
     In f files /\ Str.contains ".zip" f = true /\
     url r = remote_url host f /\
     meta r !! "ftp_local_filename" =
       Some (os_path.join (target_folder self)
               (stamp ++ "_" ++ os_path.basename f)) /\
     meta r !! "ftp_user" = Some user /\
     meta r !! "ftp_password" = Some password /\
     callback r = handle_package_ftp_cb).

Lemma file_loop_meta (R : Request -> Prop) (stamp : string)
    (files all : list string) (st : gmap string string * list Request) :
  (forall r, for_file stamp all r -> R r) ->
  (forall f, In f files -> In f all) ->
  fst st !! "ftp_user" = Some user ->
  fst st !! "ftp_password" = Some password ->
  Forall R (snd st) ->
  Forall R (snd (fold_left (file_step self host stamp) files st)).
Proof.
  intros HR. revert st; induction files as [|f files IH];
    intros [params out] Hsub Hu Hp Hall; [exact Hall |].
  cbn [fold_left]. apply IH.
  - intros g Hg. apply Hsub. now right.
  - destruct (file_step_spec self host stamp f (params, out)) as (E & _). now rewrite E.
  - destruct (file_step_spec self host stamp f (params, out)) as (_ & E & _).
    now rewrite E.
  - unfold file_step. destruct (Str.contains ".zip" f) eqn:Ez; [| exact Hall].
    cbn [snd fst] in *. apply Forall_app. split; [exact Hall |].
    constructor; [| constructor]. apply HR. exists f.
    cbn [url meta callback Str.join].
    rewrite lookup_insert_eq, !lookup_insert_ne by discriminate.
    repeat split; try assumption. apply Hsub. now left.
Qed.

Local Abbreviation files_of folder :=
  (fst (ftp_list_files (os_path.join (ftp_folder self) folder)
          (target_folder self) host user password)).

Lemma folder_loop_meta (folders : list string) (n : nat)
    (st st' : gmap string string * list Request) (R : Request -> Prop) :
  (forall k folder r, nth_error folders k = Some folder ->
      for_file (strftime_localtime (n + k)) (files_of folder) r -> R r) ->
  fst st !! "ftp_user" = Some user ->
  fst st !! "ftp_password" = Some password ->
  Forall R (snd st) ->
  folder_loop ftp_list_files strftime_localtime self host n folders st = Ok st' ->
  Forall R (snd st').
Proof.
  revert n st; induction folders as [|folder folders IH]; intros n st HR Hu Hp Hall.
  - intros [= <-]. exact Hall.
  - cbn [folder_loop]. unfold getitem at 1 2. rewrite Hu, Hp. cbn [mbind result_bind].
    destruct (ftp_list_files _ _ _ _ _) as [new_files dummy] eqn:E.
    destruct (file_loop_spec self host (generate_download_name strftime_localtime n)
                new_files st) as (Hu1 & Hp1 & _).
    apply IH.
    + intros k f r Hk Hr. apply (HR (S k) f r Hk).
      now replace (n + S k)%nat with (S n + k)%nat by lia.
    + now rewrite Hu1.
    + now rewrite Hp1.
    + apply (file_loop_meta R _ new_files new_files); auto.
      intros r Hr. apply (HR 0%nat folder r eq_refl).
      rewrite Nat.add_0_r, E. exact Hr.
Qed.

End RemoteMeta.

(** X9. Every request of remote discovery carries its own download target:
    it is for one file, with [.zip] in its path, among the new files of one
    listed folder; its metadata gives as local file name the target folder
    joined with the stamp read for that folder, an underscore and the base
    name of the file, and keeps the user and the password. The dictionary of
    parameters is updated in place for each file, and each request keeps the
    values it was built with. *)
Theorem start_requests_local_filenames
    (ftp_connection_info : option string -> option string -> string * gmap string string)
    (listdir : string -> string -> string -> string -> list string)
    (ftp_list_files :
       string -> string -> string -> string -> string -> list string * list string)
    (strftime_localtime : nat -> string)
    (self : Spider) (host user password : string) (ftp_params : gmap string string)
    (reqs : list Request) (r : Request) :
  package_path self = None \/ package_path self = Some "" ->
  ftp_connection_info (ftp_host self) (ftp_netrc self) = (host, ftp_params) ->
  ftp_params !! "ftp_user" = Some user ->
  ftp_params !! "ftp_password" = Some password ->
  start_requests ftp_connection_info listdir ftp_list_files strftime_localtime self
    = Ok reqs ->
  In r reqs ->
  exists k folder f,
    nth_error (ftp_list_folders listdir (ftp_folder self) host user password) k
      = Some folder /\
    In f (fst (ftp_list_files (os_path.join (ftp_folder self) folder)
                 (target_folder self) host user password)) /\
    Str.contains ".zip" f = true /\
    url r = remote_url host f /\
    meta r !! "ftp_local_filename" =
      Some (os_path.join (target_folder self)
              (strftime_localtime k ++ "_" ++ os_path.basename f)) /\
    meta r !! "ftp_user" = Some user /\
    meta r !! "ftp_password" = Some password /\
    callback r = handle_package_ftp_cb.
Proof.
  intros Hmode Hinfo Hu Hp Hrun Hr. unfold start_requests in Hrun.
  assert (Hrun' :
    (user ← getitem ftp_params "ftp_user";
     password ← getitem ftp_params "ftp_password";
     st ← folder_loop ftp_list_files strftime_localtime self host 0
            (ftp_list_folders listdir (ftp_folder self) host user password)
            (ftp_params, []);
     Ok (snd st)) = Ok reqs).
  { destruct Hmode as [E | E]; rewrite E, Hinfo in Hrun; exact Hrun. }
  clear Hrun. unfold getitem in Hrun'. rewrite Hu, Hp in Hrun'.
  cbn [mbind result_bind] in Hrun'.
  destruct (folder_loop _ _ _ _ _ _ _) as [st'|] eqn:Hloop; [| discriminate].
  injection Hrun' as <-.
  assert (Hall : Forall
    (fun r => exists k folder f,
       nth_error (ftp_list_folders listdir (ftp_folder self) host user password) k
         = Some folder /\
       In f (fst (ftp_list_files (os_path.join (ftp_folder self) folder)
                    (target_folder self) host user password)) /\
       Str.contains ".zip" f = true /\
       url r = remote_url host f /\
       meta r !! "ftp_local_filename" =
         Some (os_path.join (target_folder self)
                 (strftime_localtime k ++ "_" ++ os_path.basename f)) /\
       meta r !! "ftp_user" = Some user /\
       meta r !! "ftp_password" = Some password /\
       callback r = handle_package_ftp_cb) (snd st')).
  { apply (folder_loop_meta ftp_list_files strftime_localtime self host user password
             (ftp_list_folders listdir (ftp_folder self) host user password)
             0 (ftp_params, []) st'); [| exact Hu | exact Hp | constructor | exact Hloop].
    intros k folder r' Hk (f & Hf & Hz & H). exists k, folder, f. auto. }
  rewrite List.Forall_forall in Hall. exact (Hall r Hr).
Qed.

Lemma start_requests_local_filenames_witness :
  exists reqs r1 r2,
    start_requests
      (fun _ _ => ("ftp.example.org",
                   <["ftp_user" := "u"]> (<["ftp_password" := "p"]> ∅)))
      (fun _ _ _ _ => ["2022"])
      (fun _ _ _ _ _ => (["hooks/2022/a.pdf.zip"; "hooks/2022/a.xml.zip"], []))
      (fun _ => "2022-01-01_00:00:00")
      (MkSpider "OUP" "hooks" None None "/dl" None) = Ok reqs /\
    reqs = [r1; r2] /\
    meta r1 !! "ftp_local_filename" = Some "/dl/2022-01-01_00:00:00_a.pdf.zip" /\
    meta r2 !! "ftp_local_filename" = Some "/dl/2022-01-01_00:00:00_a.xml.zip".
Proof.
  destruct (start_requests _ _ _ _ _) as [reqs|] eqn:Hrun;
    [| vm_compute in Hrun; discriminate Hrun].
  assert (Hreqs : exists r1 r2, reqs = [r1; r2] /\
            url r1 = "ftp://ftp.example.org/hooks/2022/a.pdf.zip" /\
            url r2 = "ftp://ftp.example.org/hooks/2022/a.xml.zip").
  { vm_compute in Hrun. injection Hrun as <-. do 2 eexists. repeat split. }
  destruct Hreqs as (r1 & r2 & -> & Hu1 & Hu2).
  exists [r1; r2], r1, r2. split; [reflexivity |]. split; [reflexivity |].
  assert (H : forall r, In r [r1; r2] ->
            exists k folder f,
              nth_error ["2022"] k = Some folder /\
              url r = remote_url "ftp.example.org" f /\
              meta r !! "ftp_local_filename" =
                Some (os_path.join "/dl"
                        ("2022-01-01_00:00:00" ++ "_" ++ os_path.basename f))).
  { intros r Hr.
    match type of Hrun with
    | start_requests ?a ?b ?c ?d ?e = _ =>
        destruct (start_requests_local_filenames a b c d e "ftp.example.org" "u" "p"
                    (<["ftp_user" := "u"]> (<["ftp_password" := "p"]> ∅))
                    [r1; r2] r (or_introl eq_refl) eq_refl)
          as (k & folder & f & Hk & _ & _ & Hurl & Hloc & _);
          [vm_compute; reflexivity | vm_compute; reflexivity | exact Hrun | exact Hr |]
    end.
    exists k, folder, f. auto. }
  split.
  - destruct (H r1 (or_introl eq_refl)) as (k & folder & f & _ & Hurl & Hloc).
    rewrite Hu1 in Hurl. injection Hurl as <-. exact Hloc.
  - destruct (H r2 (or_intror (or_introl eq_refl))) as (k & folder & f & _ & Hurl & Hloc).
    rewrite Hu2 in Hurl. injection Hurl as <-. exact Hloc.
Defined.

(** X10. Without a user or a password among the connection parameters remote
    discovery raises [KeyError] before it yields a request. *)
Theorem start_requests_missing_credentials
    (ftp_connection_info : option string -> option string -> string * gmap string string)
    (listdir : string -> string -> string -> string -> list string)
    (ftp_list_files :
       string -> string -> string -> string -> string -> list string * list string)
    (strftime_localtime : nat -> string)
    (self : Spider) (host : string) (ftp_params : gmap string string) :
  package_path self = None \/ package_path self = Some "" ->
  ftp_connection_info (ftp_host self) (ftp_netrc self) = (host, ftp_params) ->
  ftp_params !! "ftp_user" = None \/ ftp_params !! "ftp_password" = None ->
  start_requests ftp_connection_info listdir ftp_list_files strftime_localtime self
    = Raise KeyError.
Proof.
  intros Hmode Hinfo Hmiss. unfold start_requests, getitem.
  destruct Hmode as [-> | ->]; rewrite Hinfo;
    destruct Hmiss as [-> | Hp]; try reflexivity;
    destruct (ftp_params !! "ftp_user"); cbn [mbind result_bind];
    rewrite ?Hp; reflexivity.
Qed.

Lemma start_requests_missing_credentials_witness :
  start_requests
    (fun _ _ => ("ftp.example.org", <["ftp_user" := "u"]> ∅))
    (fun _ _ _ _ => ["2022"])
    (fun _ _ _ _ _ => (["hooks/2022/a.xml.zip"], []))
    (fun _ => "2022-01-01_00:00:00")
    (MkSpider "OUP" "hooks" None None "/dl" None) = Raise KeyError.
Proof.
  apply (start_requests_missing_credentials _ _ _ _ _ "ftp.example.org"
           (<["ftp_user" := "u"]> ∅)); [now left | reflexivity |].
  right. vm_compute. reflexivity.
Defined.

(** ** More on the target directory *)

Module TargetFacts.

Lemma drop_app_ge (k : nat) (a b : string) :
  (String.length a <= k)%nat ->
  Str.drop k (a ++ b) = Str.drop (k - String.length a) b.
Proof.
  revert k; induction a as [|x a IH]; intros k Hk.
  - cbn. now rewrite Nat.sub_0_r.
  - destruct k as [|k]; [simpl in Hk; lia |]. cbn. apply IH. simpl in Hk. lia.
Qed.

Lemma contains_char_drop (c : ascii) (k : nat) (s : string) :
  Str.contains (String c "") s = false ->
  Str.contains (String c "") (Str.drop k s) = false.
Proof.
  intros H. rewrite <- (take_drop k s), contains_char_app in H.
  now apply orb_false_elim in H as [_ H].
Qed.

(** What [splitext] takes off holds no slash, and it leaves something of a
    path that is not empty. *)
Lemma splitext_ext (p a b : string) :
  os_path.splitext p = (a, b) ->
  Str.contains "/" b = false /\ (p <> "" -> a <> "").
Proof.
  unfold os_path.splitext.
  destruct (_ && _) eqn:E; intros [= <- <-]; [| now split].
  apply andb_prop in E as [Elt Estem]. apply Z.ltb_lt in Elt.
  pose proof (rfind_bounds p "/") as Hs. pose proof (rfind_bounds p ".") as Hd.
  unfold Str.slice_to, Str.slice_from, Str.len in *.
  replace (_ <? 0) with false by (symmetry; apply Z.ltb_ge; lia).
  split.
  - destruct (rfind_decompose p "/") as [[_ Hc] | (a0 & b0 & -> & Hb0 & Hr)].
    + now apply contains_char_drop.
    + rewrite Hr in Elt. unfold Str.len in Elt.
      rewrite drop_app_ge by lia.
      destruct (Z.to_nat (Str.rfind (a0 ++ String "/" b0) ".") - String.length a0)%nat
        as [|k] eqn:Ek; [lia |].
      cbn [Str.drop]. now apply contains_char_drop.
  - intros _ Ha.
    assert (Hlen : String.length (Str.take (Z.to_nat (Str.rfind p ".")) p) = 0%nat)
      by now rewrite Ha.
    rewrite length_take in Hlen.
    assert (Hz : Str.rfind p "." = 0) by lia.
    rewrite Hz in Estem. replace (Str.rfind p "/") with (-1) in Estem by lia.
    discriminate Estem.
Qed.

Lemma join_onto (target : string) :
  exists d, dir_prefix d /\
            forall y, Str.startswith y "/" = false -> os_path.join target y = d ++ y.
Proof.
  destruct (String.eqb target "" || Str.endswith target "/") eqn:E.
  - exists target. split.
    + apply orb_prop in E as [E | E]; [left; now apply String.eqb_eq | now right].
    + intros y Hy. unfold os_path.join. now rewrite Hy, E.
  - exists (target ++ "/"). split; [right; apply endswith_app |].
    intros y Hy. unfold os_path.join. rewrite Hy, E. now rewrite append_assoc.
Qed.

Lemma join_head (sep a x : string) (l : list string) :
  a ++ Str.join sep (x :: l) = Str.join sep ((a ++ x) :: l).
Proof.
  destruct l as [|y l]; [reflexivity |].
  change (Str.join sep (x :: y :: l)) with (x ++ sep ++ Str.join sep (y :: l)).
  change (Str.join sep ((a ++ x) :: y :: l))
    with ((a ++ x) ++ sep ++ Str.join sep (y :: l)).
  now rewrite append_assoc.
Qed.

End TargetFacts.

Import TargetFacts.

(** X11. The loop of [handle_package_ftp] stays in the directory of the bundle:
    it ends within its fuel, what it strips off the path holds no slash, and
    of a path that is not empty it leaves a target that is not empty. *)
Theorem splitext_loop_keeps_directory (p : string) :
  exists t e,
    splitext_loop (S (String.length p)) p = Some t /\
    p = t ++ e /\ Str.contains "/" e = false /\ (p <> "" -> t <> "").
Proof.
  assert (H : forall fuel q, (String.length q < fuel)%nat ->
            exists t e, splitext_loop fuel q = Some t /\ q = t ++ e /\
                        Str.contains "/" e = false /\ (q <> "" -> t <> "")).
  { induction fuel as [|fuel IH]; intros q Hlt; [lia |].
    cbn [splitext_loop]. destruct (os_path.splitext q) as [a b] eqn:E.
    destruct (splitext_ext _ _ _ E) as [Hb Ha].
    destruct (String.eqb_spec b "") as [-> | Hne].
    - apply splitext_no_ext in E as [-> _]. exists q, "".
      rewrite append_nil_r. auto.
    - pose proof (splitext_shrinks _ _ _ E Hne) as Hs.
      destruct (IH a) as (t & e & Ht & Hq & He & Hnt); [lia |].
      exists t, (e ++ b). split; [exact Ht |]. split; [| split].
      + rewrite (splitext_join _ _ _ E), Hq. apply append_assoc.
      + rewrite contains_char_app, He, Hb. reflexivity.
      + auto. }
  apply H. lia.
Qed.

Lemma splitext_loop_keeps_directory_witness :
  exists t e,
    splitext_loop 20 "/dl/a.b/pkg.xml.zip" = Some t /\
    "/dl/a.b/pkg.xml.zip" = t ++ e /\ t <> "".
Proof.
  destruct (splitext_loop_keeps_directory "/dl/a.b/pkg.xml.zip")
    as (t & e & Ht & He & _ & Hne).
  exists t, e. split; [exact Ht |]. split; [exact He |]. apply Hne. discriminate.
Defined.

(** X12. A bundle is unpacked next to where it was downloaded, under the stamp
    and the first part of its name: for a remote file whose base name is
    [stem.ext1...extn], downloaded with a stamp free of dots and slashes, the
    loop of [handle_package_ftp] turns the local file name [start_requests]
    chose into the target folder joined with [stamp_stem]. The bundles of one
    stem downloaded in the same pass share that directory. *)
Theorem download_name_gives_target
    (target_folder new_download_name remote_file stem : string) (exts : list string) :
  os_path.basename remote_file = Str.join "." (stem :: exts) ->
  plain new_download_name -> plain stem -> Forall plain exts ->
  let local_filename :=
    os_path.join target_folder
      (Str.join "_" [new_download_name; os_path.basename remote_file]) in
  splitext_loop (S (String.length local_filename)) local_filename
    = Some (os_path.join target_folder (new_download_name ++ "_" ++ stem)).
Proof.
  intros Hbase [Hsd Hss] [Hd Hs] Hexts. cbv zeta. rewrite Hbase.
  change (Str.join "_" [new_download_name; Str.join "." (stem :: exts)])
    with (new_download_name ++ "_" ++ Str.join "." (stem :: exts)).
  destruct (join_onto target_folder) as (d & Hdir & Hjoin).
  assert (Hstart : forall y, Str.startswith (new_download_name ++ "_" ++ y) "/" = false).
  { intros y. apply startswith_slash_free; [exact Hss | reflexivity]. }
  rewrite !Hjoin by apply Hstart.
  replace (new_download_name ++ "_" ++ Str.join "." (stem :: exts))
    with (Str.join "." ((new_download_name ++ "_" ++ stem) :: exts))
    by (rewrite <- !join_head; reflexivity).
  apply splitext_loop_dotted; try assumption.
  - destruct new_download_name; discriminate.
  - split; rewrite !contains_char_app; [rewrite Hsd, Hd | rewrite Hss, Hs]; reflexivity.
  - pose proof (join_length (new_download_name ++ "_" ++ stem) exts).
    rewrite length_append. lia.
Qed.

Lemma download_name_gives_target_witness :
  splitext_loop 35 "/dl/2022-01-01_00:00:00_iss1.xml.zip"
    = Some "/dl/2022-01-01_00:00:00_iss1".
Proof.
  apply (download_name_gives_target "/dl" "2022-01-01_00:00:00"
           "hooks/2022/iss1.xml.zip" "iss1" ["xml"; "zip"]).
  - reflexivity.
  - split; reflexivity.
  - split; reflexivity.
  - repeat constructor.
Defined.

(** X13. A bundle whose path contains [.pdf] is never handled as an archival
    one, whatever its name ends with: its PDF members go below the folder
    [pdf] of the target, and its XML members, if the path contains [.xml] as
    well, go below that same folder. *)
Theorem pdf_bundle_never_archival
    (response : Response) (z : ZipFile) (disk : Disk) :
  Str.contains ".pdf" (body response) = true ->
  exists t h,
    splitext_loop (S (String.length (body response))) (body response) = Some t /\
    handle_package_ftp response z disk = Some h /\
    unzip_calls h =
      (os_path.join t "pdf", ".pdf") ::
      (if Str.contains ".xml" (body response)
       then [(os_path.join t "pdf", ".xml")] else []).
Proof.
  intros Hpdf.
  destruct (splitext_loop_total (S (String.length (body response))) (body response))
    as (t & e & Ht & _ & _); [lia |].
  exists t. unfold handle_package_ftp. rewrite Ht, Hpdf. cbn [mbind option_bind].
  assert (E : Str.endswith (os_path.join t "pdf") "_archival" = false).
  { unfold os_path.join. cbn [Str.startswith Ascii.eqb].
    replace (Str.startswith "pdf" "/") with false by reflexivity.
    destruct (_ || _).
    - apply (pdf_folder_not_archival t "").
    - apply (pdf_folder_not_archival t "/"). }
  cbv beta iota zeta. rewrite E.
  destruct (Str.contains ".xml" (body response)); eexists; repeat split.
Qed.

Lemma pdf_bundle_never_archival_witness :
  exists h,
    handle_package_ftp (MkResponse "" "/dl/iss1_archival.pdf.zip" ∅)
                       [("a.pdf", "A")] ∅ = Some h /\
    unzip_calls h = [("/dl/iss1_archival/pdf", ".pdf")].
Proof.
  destruct (pdf_bundle_never_archival
              (MkResponse "" "/dl/iss1_archival.pdf.zip" ∅) [("a.pdf", "A")] ∅)
    as (t & h & Ht & Hh & Hcalls); [reflexivity |].
  exists h. split; [exact Hh |]. rewrite Hcalls.
  vm_compute in Ht. injection Ht as <-. reflexivity.
Defined.

(** ** The two tables of article types *)

(** X14. The mapping of article types has an entry for the allowed types and
    for no other string, and every entry is one of the four doctypes: the
    lookup with the default [unknown] gives a doctype other than [unknown]
    for an allowed type and [unknown] for every other string. *)
Theorem article_type_tables_agree (s : string) :
  (In s allowed_article_types <-> is_Some (article_type_mapping !! s))
  /\ (In s allowed_article_types ->
      exists doctype,
        Py.dict_get article_type_mapping (PStr s) default_article_type = Ok doctype /\
        In doctype ["article"; "corrigendum"; "addendum"; "other"])
  /\ (~ In s allowed_article_types ->
      Py.dict_get article_type_mapping (PStr s) default_article_type = Ok "unknown").
Proof.
  assert (Hback : is_Some (article_type_mapping !! s) -> In s allowed_article_types).
  { intros [d H]. unfold article_type_mapping in H. cbn [list_to_map foldr fst snd] in H.
    repeat (apply lookup_insert_Some in H as [[<- _] | [_ H]];
            [cbn [In allowed_article_types]; tauto |]).
    rewrite lookup_empty in H. discriminate H. }
  split; [| split].
  - split; [| exact Hback]. intros H.
    destruct (article_type_mapping_covers_allowed s H) as (d & Hd & _). eauto.
  - intros H. destruct (article_type_mapping_covers_allowed s H) as (d & _ & Hd & _ & Hin).
    eauto.
  - intros H. cbn [Py.dict_get].
    destruct (article_type_mapping !! s) eqn:E; [| reflexivity].
    exfalso. apply H, Hback. eauto.
Qed.

Lemma article_type_tables_agree_witness :
  Py.dict_get article_type_mapping (PStr "abstract") default_article_type = Ok "unknown".
Proof.
  apply (proj2 (proj2 (article_type_tables_agree "abstract"))).
  cbn [In allowed_article_types]. intros H.
  repeat (destruct H as [H | H]; [discriminate H |]). exact H.
Defined.
